(** * terraform-provider-zendesk: the API client and the two resource adapters

    A shallow embedding of [internal/provider/client.go], of the OAuth client
    and OAuth token resources and of the provider's [Configure], followed by
    the properties the specification states about them.

    Conventions.
    - A Go [int64] is a [Z]; a Go [string] is a [string] of bytes.
    - A Go pointer [*T] to a value that is never mutated after construction
      is an [option T], [None] being [nil].  Dereferencing [nil] panics.
    - A Go [(v, err)] result is a pair whose second component is an
      [option error], [None] being the [nil] error.
    - What lies outside the repository (the HTTP transport and the remote
      server, the JSON lexer, URL validation, [strconv.Quote]) is gathered in
      the class [World]; every definition is parametric in it.
    - Every request that is handed to [c.http.Do] is appended to a trace,
      so that "no network call" is the statement that the trace did not
      grow.  What [net/http] does inside one call of [Do] (following a
      redirect, say) belongs to the answer of that call and is not in the
      trace. *)

From Stdlib Require Import ZArith List String Ascii Bool Lia.
From Stdlib Require Import DecimalString DecimalPos.
Import ListNotations.

Set Warnings "-register-all".

Local Open Scope string_scope.
Local Open Scope Z_scope.

(** ** Go errors *)

Inductive NumErr := ErrSyntax | ErrRange.

Inductive error :=
| fmt_Errorf (text : string)
| url_Error (text : string)
| json_SyntaxError (text : string)
| json_UnmarshalTypeError (value struct_ field type_ : string)
| strconv_NumError (func num : string) (err : NumErr).

(** ** strconv *)

Module strconv.

Definition is_digit (c : ascii) : bool :=
  let n := Z.of_N (N_of_ascii c) in (48 <=? n) && (n <=? 57).

Definition digit (c : ascii) : Z := Z.of_N (N_of_ascii c) - 48.

Definition maxUint64 : Z := 2 ^ 64 - 1.

(** The digit loop of [ParseUint(s, 10, 64)].  The accumulator is a
    [uint64]: the addition wraps, and the wrap is how Go detects the
    overflow. *)
Fixpoint parseUint_loop (s : string) (n : Z) : NumErr + Z :=
  match s with
  | EmptyString => inr n
  | String c rest =>
      if negb (is_digit c) then inl ErrSyntax
      else if maxUint64 / 10 + 1 <=? n then inl ErrRange
      else
        let n10 := n * 10 in
        let n1 := (n10 + digit c) mod 2 ^ 64 in
        if (n1 <? n10) || (maxUint64 <? n1) then inl ErrRange
        else parseUint_loop rest n1
  end.

Definition ParseUint (s : string) : NumErr + Z :=
  match s with
  | EmptyString => inl ErrSyntax
  | _ => parseUint_loop s 0
  end.

Definition fnParseInt : string := "ParseInt".

(** [ParseInt(s, 10, 64)]. *)
Definition ParseInt (s0 : string) : Z * option error :=
  match s0 with
  | EmptyString => (0, Some (strconv_NumError fnParseInt s0 ErrSyntax))
  | String c rest =>
      let neg := Ascii.eqb c "-" in
      let s := if Ascii.eqb c "+" then rest else if neg then rest else s0 in
      let cutoff := 2 ^ 63 in
      match ParseUint s with
      | inl ErrSyntax => (0, Some (strconv_NumError fnParseInt s0 ErrSyntax))
      | inl ErrRange =>
          (* ParseUint returned maxUint64 together with the range error *)
          if neg then (- cutoff, Some (strconv_NumError fnParseInt s0 ErrRange))
          else (cutoff - 1, Some (strconv_NumError fnParseInt s0 ErrRange))
      | inr un =>
          if negb neg && (cutoff <=? un)
          then (cutoff - 1, Some (strconv_NumError fnParseInt s0 ErrRange))
          else if neg && (cutoff <? un)
          then (- cutoff, Some (strconv_NumError fnParseInt s0 ErrRange))
          else (if neg then - un else un, None)
      end
  end.

(** [FormatInt(i, 10)]. *)
Definition FormatInt (i : Z) : string :=
  NilZero.string_of_int (Z.to_int i).

End strconv.

(** ** encoding/json values *)

Module json.

(** A JSON document.  A number keeps its literal: Go converts it with
    [strconv.ParseInt] only when it is stored into an [int64].  An object
    keeps its members in order, duplicates included. *)
Inductive value :=
| Null
| Bool (b : bool)
| Number (literal : string)
| String_ (s : string)
| Array (elems : list value)
| Object (members : list (string * value)).

(** The word Go uses for a value in an [UnmarshalTypeError]. *)
Definition kind_name (v : value) : string :=
  match v with
  | Null => "null"
  | Bool _ => "bool"
  | Number _ => "number"
  | String_ _ => "string"
  | Array _ => "array"
  | Object _ => "object"
  end.

End json.

(** ** The types of client.go *)

Record Client := {
  subdomain : string;
  email : string;
  apiToken : string
}.

Module OAuthClient.
Record t := {
  ID : Z;
  Name : string;
  Identifier : string;
  Kind : string;
  Description : string
}.
Definition zero : t :=
  {| ID := 0; Name := ""; Identifier := ""; Kind := ""; Description := "" |}.
End OAuthClient.

Module OAuthToken.
Record t := {
  ID : Z;
  ClientID : Z;
  UserID : Z;
  Scopes : list string;
  FullToken : string;
  ExpiresAt : string
}.
Definition zero : t :=
  {| ID := 0; ClientID := 0; UserID := 0; Scopes := [];
     FullToken := ""; ExpiresAt := "" |}.
End OAuthToken.

Record oauthClientWrapper := { wrapper_Client : OAuthClient.t }.
Record oauthTokenWrapper := { wrapper_Token : OAuthToken.t }.

Definition NewClient (subdomain email apiToken : string) : option Client :=
  Some {| subdomain := subdomain; email := email; apiToken := apiToken |}.

(** ** net/http *)

Record HttpRequest := {
  Method : string;
  URL : string;
  BasicAuth : option (string * string);
  ContentType : option string;
  Body : option json.value
}.

(** A response: its status and the bytes [resp.Body] delivers. *)
Record HttpResponse := {
  StatusCode : Z;
  RespBody : string
}.

Definition StatusOK : Z := 200.
Definition StatusCreated : Z := 201.
Definition StatusNoContent : Z := 204.
Definition StatusNotFound : Z := 404.

Definition SetBasicAuth (req : HttpRequest) (username password : string) : HttpRequest :=
  {| Method := Method req; URL := URL req;
     BasicAuth := Some (username, password);
     ContentType := ContentType req; Body := Body req |}.

Definition SetContentType (req : HttpRequest) (v : string) : HttpRequest :=
  {| Method := Method req; URL := URL req;
     BasicAuth := BasicAuth req;
     ContentType := Some v; Body := Body req |}.

(** ** What the repository does not define *)

Class World := {
(** One call of [http.Client.Do] on the client [NewClient] builds: the
    transport and the remote server, redirects followed.  The answer may
    depend on every request handed to [Do] before. *)
http_RoundTrip : list HttpRequest -> HttpRequest -> error + HttpResponse;
(** [http.NewRequest] rejects a URL that does not parse. *)
url_Parse : string -> option error;
(** The first JSON value of a response body, as the decoder's scanner
    reads it. *)
json_Scan : string -> error + json.value;
(** The case folding under which the decoder matches an object key with a
    struct field when no field has exactly that name. *)
json_foldName : string -> string;
(** [strconv.Quote], used in the text of a [NumError]. *)
strconv_Quote : string -> string
}.

(** ** Computations that issue HTTP requests and may panic *)

Inductive Res (A : Type) :=
| Ok (a : A)
| Panic (msg : string).
Arguments Ok {A} a.
Arguments Panic {A} msg.

Definition Trace := list HttpRequest.

Definition M (A : Type) : Type := Trace -> Res A * Trace.

Definition ret {A} (a : A) : M A := fun t => (Ok a, t).

Definition bind {A B} (m : M A) (f : A -> M B) : M B :=
  fun t =>
    match m t with
    | (Ok a, t') => f a t'
    | (Panic msg, t') => (Panic msg, t')
    end.

Definition panic {A} (msg : string) : M A := fun t => (Panic msg, t).

Notation "x <- m ;; k" := (bind m (fun x => k))
  (at level 61, m at next level, right associativity).
Notation "' pat <- m ;; k" := (bind m (fun x => match x with pat => k end))
  (at level 61, pat pattern, m at next level, right associativity).

Definition nil_dereference : string :=
  "runtime error: invalid memory address or nil pointer dereference".

(** Reading a field through a pointer. *)
Definition deref {A} (p : option A) : M A :=
  match p with
  | Some a => ret a
  | None => panic nil_dereference
  end.

(** ** Decoding a JSON value into the structs of client.go *)

Module decode.

Definition int64 (struct_ field : string) (old : Z) (v : json.value) : error + Z :=
  match v with
  | json.Null => inr old
  | json.Number lit =>
      match strconv.ParseInt lit with
      | (n, None) => inr n
      | (_, Some _) =>
          inl (json_UnmarshalTypeError ("number " ++ lit) struct_ field "int64")
      end
  | _ => inl (json_UnmarshalTypeError (json.kind_name v) struct_ field "int64")
  end.

Definition string_ (struct_ field : string) (old : string) (v : json.value)
  : error + string :=
  match v with
  | json.Null => inr old
  | json.String_ s => inr s
  | _ => inl (json_UnmarshalTypeError (json.kind_name v) struct_ field "string")
  end.

(** The elements of a [[]string] decoded into a slice without elements,
    which is what the first [scopes] member of an object meets: a [null]
    element leaves the zero value.  A later [scopes] member of the same
    object is decoded by [encoding/json] into the slice the earlier one
    left, where a [null] element keeps the string that was there; here it
    gives the empty string as well. *)
Fixpoint strings (struct_ field : string) (elems : list json.value)
  : error + list string :=
  match elems with
  | [] => inr []
  | e :: rest =>
      match string_ struct_ field "" e with
      | inl err => inl err
      | inr s =>
          match strings struct_ field rest with
          | inl err => inl err
          | inr l => inr (s :: l)
          end
      end
  end.

Definition string_slice (struct_ field : string) (v : json.value)
  : error + list string :=
  match v with
  | json.Null => inr []
  | json.Array elems => strings struct_ field elems
  | _ => inl (json_UnmarshalTypeError (json.kind_name v) struct_ field "[]string")
  end.

Section Struct.
Context {W : World}.
Context {S F : Type}.
Variable fields : list F.
Variable name : F -> string.
Variable set : S -> F -> json.value -> error + S.

(** The field an object key is stored into: the field of exactly that
    name, else the first field whose name folds to the same string. *)
Definition lookup_field (key : string) : option F :=
  match find (fun f => String.eqb (name f) key) fields with
  | Some f => Some f
  | None =>
      find (fun f => String.eqb (json_foldName (name f)) (json_foldName key)) fields
  end.

(** Members are stored in document order into the same struct, so a later
    duplicate overwrites an earlier one and an unknown key is skipped. *)
Fixpoint members (s : S) (ms : list (string * json.value)) : error + S :=
  match ms with
  | [] => inr s
  | (k, v) :: rest =>
      match lookup_field k with
      | None => members s rest
      | Some f =>
          match set s f v with
          | inl err => inl err
          | inr s' => members s' rest
          end
      end
  end.

Definition struct_ (struct_name field type_name : string) (old : S) (v : json.value)
  : error + S :=
  match v with
  | json.Null => inr old
  | json.Object ms => members old ms
  | _ =>
      inl (json_UnmarshalTypeError (json.kind_name v) struct_name field type_name)
  end.
End Struct.

End decode.

Module OAuthClientJSON.
Import OAuthClient.

Inductive field := f_id | f_name | f_identifier | f_kind | f_description.

Definition fields : list field := [f_id; f_name; f_identifier; f_kind; f_description].

Definition name (f : field) : string :=
  match f with
  | f_id => "id"
  | f_name => "name"
  | f_identifier => "identifier"
  | f_kind => "kind"
  | f_description => "description"
  end.

Definition set (c : t) (f : field) (v : json.value) : error + t :=
  match f with
  | f_id =>
      match decode.int64 "oauthClientWrapper" "client.id" (ID c) v with
      | inl e => inl e
      | inr x => inr {| ID := x; Name := Name c; Identifier := Identifier c;
                        Kind := Kind c; Description := Description c |}
      end
  | f_name =>
      match decode.string_ "oauthClientWrapper" "client.name" (Name c) v with
      | inl e => inl e
      | inr x => inr {| ID := ID c; Name := x; Identifier := Identifier c;
                        Kind := Kind c; Description := Description c |}
      end
  | f_identifier =>
      match decode.string_ "oauthClientWrapper" "client.identifier" (Identifier c) v with
      | inl e => inl e
      | inr x => inr {| ID := ID c; Name := Name c; Identifier := x;
                        Kind := Kind c; Description := Description c |}
      end
  | f_kind =>
      match decode.string_ "oauthClientWrapper" "client.kind" (Kind c) v with
      | inl e => inl e
      | inr x => inr {| ID := ID c; Name := Name c; Identifier := Identifier c;
                        Kind := x; Description := Description c |}
      end
  | f_description =>
      match decode.string_ "oauthClientWrapper" "client.description" (Description c) v with
      | inl e => inl e
      | inr x => inr {| ID := ID c; Name := Name c; Identifier := Identifier c;
                        Kind := Kind c; Description := x |}
      end
  end.

(** [json.Marshal] of an [OAuthClient]: the fields in declaration order;
    only [description] carries [omitempty].  A string is kept as it is,
    which is what [json.Marshal] does with valid UTF-8. *)
Definition Marshal (c : t) : json.value :=
  json.Object
    ([("id", json.Number (strconv.FormatInt (ID c)));
      ("name", json.String_ (Name c));
      ("identifier", json.String_ (Identifier c));
      ("kind", json.String_ (Kind c))]
     ++ (if String.eqb (Description c) "" then []
         else [("description", json.String_ (Description c))]))%list.
End OAuthClientJSON.

Module OAuthTokenJSON.
Import OAuthToken.

Inductive field :=
  f_id | f_client_id | f_user_id | f_scopes | f_full_token | f_expires_at.

Definition fields : list field :=
  [f_id; f_client_id; f_user_id; f_scopes; f_full_token; f_expires_at].

Definition name (f : field) : string :=
  match f with
  | f_id => "id"
  | f_client_id => "client_id"
  | f_user_id => "user_id"
  | f_scopes => "scopes"
  | f_full_token => "full_token"
  | f_expires_at => "expires_at"
  end.

Definition set (k : t) (f : field) (v : json.value) : error + t :=
  match f with
  | f_id =>
      match decode.int64 "oauthTokenWrapper" "token.id" (ID k) v with
      | inl e => inl e
      | inr x => inr {| ID := x; ClientID := ClientID k; UserID := UserID k;
                        Scopes := Scopes k; FullToken := FullToken k;
                        ExpiresAt := ExpiresAt k |}
      end
  | f_client_id =>
      match decode.int64 "oauthTokenWrapper" "token.client_id" (ClientID k) v with
      | inl e => inl e
      | inr x => inr {| ID := ID k; ClientID := x; UserID := UserID k;
                        Scopes := Scopes k; FullToken := FullToken k;
                        ExpiresAt := ExpiresAt k |}
      end
  | f_user_id =>
      match decode.int64 "oauthTokenWrapper" "token.user_id" (UserID k) v with
      | inl e => inl e
      | inr x => inr {| ID := ID k; ClientID := ClientID k; UserID := x;
                        Scopes := Scopes k; FullToken := FullToken k;
                        ExpiresAt := ExpiresAt k |}
      end
  | f_scopes =>
      match decode.string_slice "oauthTokenWrapper" "token.scopes" v with
      | inl e => inl e
      | inr x => inr {| ID := ID k; ClientID := ClientID k; UserID := UserID k;
                        Scopes := x; FullToken := FullToken k;
                        ExpiresAt := ExpiresAt k |}
      end
  | f_full_token =>
      match decode.string_ "oauthTokenWrapper" "token.full_token" (FullToken k) v with
      | inl e => inl e
      | inr x => inr {| ID := ID k; ClientID := ClientID k; UserID := UserID k;
                        Scopes := Scopes k; FullToken := x;
                        ExpiresAt := ExpiresAt k |}
      end
  | f_expires_at =>
      match decode.string_ "oauthTokenWrapper" "token.expires_at" (ExpiresAt k) v with
      | inl e => inl e
      | inr x => inr {| ID := ID k; ClientID := ClientID k; UserID := UserID k;
                        Scopes := Scopes k; FullToken := FullToken k;
                        ExpiresAt := x |}
      end
  end.

(** [json.Marshal] of an [OAuthToken].  A slice is modelled by the list of
    its elements; the slice this repository marshals is the one its caller
    builds with [make], which is never [nil].  A string is kept as it is,
    which is what [json.Marshal] does with valid UTF-8. *)
Definition Marshal (k : t) : json.value :=
  json.Object
    ([("id", json.Number (strconv.FormatInt (ID k)));
      ("client_id", json.Number (strconv.FormatInt (ClientID k)));
      ("user_id", json.Number (strconv.FormatInt (UserID k)));
      ("scopes", json.Array (map json.String_ (Scopes k)))]
     ++ (if String.eqb (FullToken k) "" then []
         else [("full_token", json.String_ (FullToken k))])
     ++ (if String.eqb (ExpiresAt k) "" then []
         else [("expires_at", json.String_ (ExpiresAt k))]))%list.
End OAuthTokenJSON.

Module oauthClientWrapperJSON.

Inductive field := f_client.

Definition name (f : field) : string := "client".

Definition set (w : oauthClientWrapper) (f : field) (v : json.value)
  {W : World} : error + oauthClientWrapper :=
  match decode.struct_ OAuthClientJSON.fields OAuthClientJSON.name OAuthClientJSON.set
          "oauthClientWrapper" "client" "provider.OAuthClient" (wrapper_Client w) v with
  | inl e => inl e
  | inr c => inr {| wrapper_Client := c |}
  end.

Definition Marshal (w : oauthClientWrapper) : json.value :=
  json.Object [("client", OAuthClientJSON.Marshal (wrapper_Client w))].

End oauthClientWrapperJSON.

Module oauthTokenWrapperJSON.

Inductive field := f_token.

Definition name (f : field) : string := "token".

Definition set (w : oauthTokenWrapper) (f : field) (v : json.value)
  {W : World} : error + oauthTokenWrapper :=
  match decode.struct_ OAuthTokenJSON.fields OAuthTokenJSON.name OAuthTokenJSON.set
          "oauthTokenWrapper" "token" "provider.OAuthToken" (wrapper_Token w) v with
  | inl e => inl e
  | inr k => inr {| wrapper_Token := k |}
  end.

Definition Marshal (w : oauthTokenWrapper) : json.value :=
  json.Object [("token", OAuthTokenJSON.Marshal (wrapper_Token w))].

End oauthTokenWrapperJSON.

(** ** client.go *)

Section ApiClient.
Context {W : World}.

(** [err.Error()], which is also what [%v] prints. *)
Definition Error (e : error) : string :=
  match e with
  | fmt_Errorf text => text
  | url_Error text => text
  | json_SyntaxError text => text
  | json_UnmarshalTypeError v s f ty =>
      if String.eqb s "" && String.eqb f ""
      then "json: cannot unmarshal " ++ v ++ " into Go value of type " ++ ty
      else "json: cannot unmarshal " ++ v ++ " into Go struct field "
             ++ s ++ "." ++ f ++ " of type " ++ ty
  | strconv_NumError fn num err =>
      "strconv." ++ fn ++ ": parsing " ++ strconv_Quote num ++ ": "
        ++ match err with
           | ErrSyntax => "invalid syntax"
           | ErrRange => "value out of range"
           end
  end.

(** [json.NewDecoder(resp.Body).Decode(&result)] with [result] a zero
    wrapper. *)
Definition Decode_oauthClientWrapper (body : string) : error + oauthClientWrapper :=
  match json_Scan body with
  | inl e => inl e
  | inr v =>
      decode.struct_ [oauthClientWrapperJSON.f_client] oauthClientWrapperJSON.name
        (fun w f v => oauthClientWrapperJSON.set w f v)
        "" "" "provider.oauthClientWrapper"
        {| wrapper_Client := OAuthClient.zero |} v
  end.

Definition Decode_oauthTokenWrapper (body : string) : error + oauthTokenWrapper :=
  match json_Scan body with
  | inl e => inl e
  | inr v =>
      decode.struct_ [oauthTokenWrapperJSON.f_token] oauthTokenWrapperJSON.name
        (fun w f v => oauthTokenWrapperJSON.set w f v)
        "" "" "provider.oauthTokenWrapper"
        {| wrapper_Token := OAuthToken.zero |} v
  end.

Definition NewRequest (method url : string) (body : option json.value)
  : error + HttpRequest :=
  match url_Parse url with
  | Some e => inl e
  | None => inr {| Method := method; URL := url; BasicAuth := None;
                   ContentType := None; Body := body |}
  end.

(** [c.http.Do(req)]: one call of [Do]; the request handed to it is
    recorded. *)
Definition http_Do (req : HttpRequest) : M (error + HttpResponse) :=
  fun t => (Ok (http_RoundTrip t req), (t ++ [req])%list).

Definition clients_url (c : Client) : string :=
  "https://" ++ subdomain c ++ ".zendesk.com/api/v2/oauth/clients.json".

Definition client_url (c : Client) (id : Z) : string :=
  "https://" ++ subdomain c ++ ".zendesk.com/api/v2/oauth/clients/"
    ++ strconv.FormatInt id ++ ".json".

Definition tokens_url (c : Client) : string :=
  "https://" ++ subdomain c ++ ".zendesk.com/api/v2/oauth/tokens.json".

Definition token_url (c : Client) (id : Z) : string :=
  "https://" ++ subdomain c ++ ".zendesk.com/api/v2/oauth/tokens/"
    ++ strconv.FormatInt id ++ ".json".

Definition CreateOAuthClient (c : option Client)
  (name identifier kind description : string)
  : M (option OAuthClient.t * option error) :=
  c <- deref c ;;
  let url := clients_url c in
  let payload :=
    {| wrapper_Client :=
         {| OAuthClient.ID := 0;
            OAuthClient.Name := name;
            OAuthClient.Identifier := identifier;
            OAuthClient.Kind := kind;
            OAuthClient.Description := description |} |} in
  (* json.Marshal cannot fail on this struct *)
  let body := oauthClientWrapperJSON.Marshal payload in
  match NewRequest "POST" url (Some body) with
  | inl err => ret (None, Some err)
  | inr req =>
      let req := SetBasicAuth req (email c ++ "/token") (apiToken c) in
      let req := SetContentType req "application/json" in
      r <- http_Do req ;;
      match r with
      | inl err => ret (None, Some err)
      | inr resp =>
          if negb (StatusCode resp =? StatusCreated)
          then ret (None, Some (fmt_Errorf
                      ("failed to create OAuth client: " ++ RespBody resp)))
          else
            match Decode_oauthClientWrapper (RespBody resp) with
            | inl err => ret (None, Some err)
            | inr result => ret (Some (wrapper_Client result), None)
            end
      end
  end.

Definition ReadOAuthClient (c : option Client) (id : Z)
  : M (option OAuthClient.t * option error) :=
  c <- deref c ;;
  let url := client_url c id in
  match NewRequest "GET" url None with
  | inl err => ret (None, Some err)
  | inr req =>
      let req := SetBasicAuth req (email c ++ "/token") (apiToken c) in
      r <- http_Do req ;;
      match r with
      | inl err => ret (None, Some err)
      | inr resp =>
          if StatusCode resp =? StatusNotFound then ret (None, None)
          else if negb (StatusCode resp =? StatusOK)
          then ret (None, Some (fmt_Errorf
                      ("failed to read OAuth client: " ++ RespBody resp)))
          else
            match Decode_oauthClientWrapper (RespBody resp) with
            | inl err => ret (None, Some err)
            | inr result => ret (Some (wrapper_Client result), None)
            end
      end
  end.

Definition DeleteOAuthClient (c : option Client) (id : Z) : M (option error) :=
  c <- deref c ;;
  let url := client_url c id in
  match NewRequest "DELETE" url None with
  | inl err => ret (Some err)
  | inr req =>
      let req := SetBasicAuth req (email c ++ "/token") (apiToken c) in
      r <- http_Do req ;;
      match r with
      | inl err => ret (Some err)
      | inr resp =>
          if negb (StatusCode resp =? StatusNoContent)
          then ret (Some (fmt_Errorf
                      ("failed to delete OAuth client: " ++ RespBody resp)))
          else ret None
      end
  end.

Definition CreateOAuthToken (c : option Client)
  (clientID : Z) (scopes : list string) (expiresAt : string)
  : M (option OAuthToken.t * option error) :=
  c <- deref c ;;
  let url := tokens_url c in
  let payload :=
    {| wrapper_Token :=
         {| OAuthToken.ID := 0;
            OAuthToken.ClientID := clientID;
            OAuthToken.UserID := 0;
            OAuthToken.Scopes := scopes;
            OAuthToken.FullToken := "";
            OAuthToken.ExpiresAt := expiresAt |} |} in
  let body := oauthTokenWrapperJSON.Marshal payload in
  match NewRequest "POST" url (Some body) with
  | inl err => ret (None, Some err)
  | inr req =>
      let req := SetBasicAuth req (email c ++ "/token") (apiToken c) in
      let req := SetContentType req "application/json" in
      r <- http_Do req ;;
      match r with
      | inl err => ret (None, Some err)
      | inr resp =>
          if negb (StatusCode resp =? StatusCreated)
          then ret (None, Some (fmt_Errorf
                      ("failed to create OAuth token: " ++ RespBody resp)))
          else
            match Decode_oauthTokenWrapper (RespBody resp) with
            | inl err => ret (None, Some err)
            | inr result => ret (Some (wrapper_Token result), None)
            end
      end
  end.

Definition ReadOAuthToken (c : option Client) (id : Z)
  : M (option OAuthToken.t * option error) :=
  c <- deref c ;;
  let url := token_url c id in
  match NewRequest "GET" url None with
  | inl err => ret (None, Some err)
  | inr req =>
      let req := SetBasicAuth req (email c ++ "/token") (apiToken c) in
      r <- http_Do req ;;
      match r with
      | inl err => ret (None, Some err)
      | inr resp =>
          if StatusCode resp =? StatusNotFound then ret (None, None)
          else if negb (StatusCode resp =? StatusOK)
          then ret (None, Some (fmt_Errorf
                      ("failed to read OAuth token: " ++ RespBody resp)))
          else
            match Decode_oauthTokenWrapper (RespBody resp) with
            | inl err => ret (None, Some err)
            | inr result => ret (Some (wrapper_Token result), None)
            end
      end
  end.

Definition DeleteOAuthToken (c : option Client) (id : Z) : M (option error) :=
  c <- deref c ;;
  let url := token_url c id in
  match NewRequest "DELETE" url None with
  | inl err => ret (Some err)
  | inr req =>
      let req := SetBasicAuth req (email c ++ "/token") (apiToken c) in
      r <- http_Do req ;;
      match r with
      | inl err => ret (Some err)
      | inr resp =>
          if negb (StatusCode resp =? StatusNoContent)
          then ret (Some (fmt_Errorf
                      ("failed to delete OAuth token: " ++ RespBody resp)))
          else ret None
      end
  end.

End ApiClient.

(** ** The plugin framework, as far as the adapters use it *)

Module types.

(** [types.String]: null, unknown, or a known value. *)
Inductive String_ :=
| null
| unknown
| known (s : string).

Definition StringValue (s : string) : String_ := known s.

Definition ValueString (v : String_) : string :=
  match v with
  | known s => s
  | _ => ""
  end.

Definition IsNull (v : String_) : bool :=
  match v with null => true | _ => false end.

Definition IsUnknown (v : String_) : bool :=
  match v with unknown => true | _ => false end.

End types.

Module diag.

Inductive Severity := SeverityError | SeverityWarning.

Record Diagnostic := {
  severity : Severity;
  Summary : string;
  Detail : string;
  AttributePath : option string
}.

Definition Diagnostics := list Diagnostic.

Definition NewErrorDiagnostic (summary detail : string) : Diagnostic :=
  {| severity := SeverityError; Summary := summary; Detail := detail;
     AttributePath := None |}.

Definition NewAttributeErrorDiagnostic (path summary detail : string) : Diagnostic :=
  {| severity := SeverityError; Summary := summary; Detail := detail;
     AttributePath := Some path |}.

Definition Severity_eqb (a b : Severity) : bool :=
  match a, b with
  | SeverityError, SeverityError => true
  | SeverityWarning, SeverityWarning => true
  | _, _ => false
  end.

Definition Equal (a b : Diagnostic) : bool :=
  Severity_eqb (severity a) (severity b)
  && String.eqb (Summary a) (Summary b)
  && String.eqb (Detail a) (Detail b)
  && match AttributePath a, AttributePath b with
     | None, None => true
     | Some p, Some q => String.eqb p q
     | _, _ => false
     end.

Definition Contains (ds : Diagnostics) (d : Diagnostic) : bool :=
  existsb (fun x => Equal x d) ds.

(** [Diagnostics.Append] skips a diagnostic that is already present. *)
Fixpoint Append (ds : Diagnostics) (new : list Diagnostic) : Diagnostics :=
  match new with
  | [] => ds
  | d :: rest =>
      if Contains ds d then Append ds rest else Append (ds ++ [d])%list rest
  end.

Definition AddError (ds : Diagnostics) (summary detail : string) : Diagnostics :=
  Append ds [NewErrorDiagnostic summary detail].

Definition AddAttributeError (ds : Diagnostics) (path summary detail : string)
  : Diagnostics :=
  Append ds [NewAttributeErrorDiagnostic path summary detail].

Definition is_error (d : Diagnostic) : bool :=
  Severity_eqb (severity d) SeverityError.

Definition HasError (ds : Diagnostics) : bool := existsb is_error ds.

End diag.

Module tfsdk.

(** A [tfsdk.Plan], [tfsdk.State] or [tfsdk.Config] as a request carries it,
    seen through its [Get(ctx, &target)]: the diagnostics [Get] returns and
    the value it leaves in the target. *)
Record Data (T : Type) := {
  Get_diags : diag.Diagnostics;
  Get_value : T
}.
Arguments Get_diags {T} _.
Arguments Get_value {T} _.

(** The part of a [resource.CreateResponse], [ReadResponse],
    [UpdateResponse] or [DeleteResponse] the adapters touch.  [State] is
    [None] when the resource is not tracked. *)
Record Response (T : Type) := {
  State : option T;
  Diagnostics : diag.Diagnostics
}.
Arguments State {T} _.
Arguments Diagnostics {T} _.

Definition Diagnostics_Append {T} (resp : Response T) (ds : diag.Diagnostics)
  : Response T :=
  {| State := State resp; Diagnostics := diag.Append (Diagnostics resp) ds |}.

Definition Diagnostics_AddError {T} (resp : Response T) (summary detail : string)
  : Response T :=
  {| State := State resp;
     Diagnostics := diag.AddError (Diagnostics resp) summary detail |}.

(** [resp.State.Set(ctx, v)] for a model of the resource's own schema. *)
Definition State_Set {T} (resp : Response T) (v : T) : Response T :=
  {| State := Some v; Diagnostics := Diagnostics resp |}.

Definition State_RemoveResource {T} (resp : Response T) : Response T :=
  {| State := None; Diagnostics := Diagnostics resp |}.

End tfsdk.

(** The dynamic value of [ProviderData], [ResourceData] and
    [DataSourceData], all of type [any]. *)
Inductive any :=
| any_nil
| any_Client (p : option Client)
| any_other (type_name : string).

Definition type_name_of (a : any) : string :=
  match a with
  | any_nil => "<nil>"
  | any_Client _ => "*provider.Client"
  | any_other n => n
  end.

(** The requests and responses of package [resource]. *)
Module resource.

Record ConfigureRequest := { ProviderData : any }.

Record ConfigureResponse := { Configure_Diagnostics : diag.Diagnostics }.

Record CreateRequest (T : Type) := { Create_Plan : tfsdk.Data T }.
Arguments Create_Plan {T} _.

Record ReadRequest (T : Type) := { Read_State : tfsdk.Data T }.
Arguments Read_State {T} _.

Record UpdateRequest (T : Type) := {
  Update_Plan : tfsdk.Data T;
  Update_State : tfsdk.Data T
}.
Arguments Update_Plan {T} _.
Arguments Update_State {T} _.

Record DeleteRequest (T : Type) := { Delete_State : tfsdk.Data T }.
Arguments Delete_State {T} _.

End resource.
Import resource.

(** ** The OAuth client resource *)

Module OAuthClientResourceModel.
Record t := {
  ID : types.String_;
  Name : types.String_;
  Identifier : types.String_;
  Kind : types.String_;
  Description : types.String_
}.
End OAuthClientResourceModel.

Module OAuthClientResource.
Import types tfsdk.
Import OAuthClientResourceModel.

Record t := { client : option Client }.

Definition Model := OAuthClientResourceModel.t.

(** [NewOAuthClientResource]. *)
Definition New : t := {| client := None |}.

Definition Configure (r : t) (req : ConfigureRequest) (resp : ConfigureResponse)
  : t * ConfigureResponse :=
  match ProviderData req with
  | any_nil => (r, resp)
  | any_Client p => ({| client := p |}, resp)
  | other =>
      (r, {| Configure_Diagnostics :=
               diag.AddError (Configure_Diagnostics resp)
                 "Unexpected Resource Configure Type"
                 ("Expected *Client, got: " ++ type_name_of other
                    ++ ". Please report this issue to the provider developers.") |})
  end.

Section Operations.
Context {W : World}.

Definition Create (r : t) (req : CreateRequest Model) (resp : Response Model)
  : M (Response Model) :=
  let plan := Get_value (Create_Plan req) in
  let resp := Diagnostics_Append resp (Get_diags (Create_Plan req)) in
  if diag.HasError (Diagnostics resp) then ret resp
  else
    '(created, err) <- CreateOAuthClient (client r)
                         (ValueString (Name plan))
                         (ValueString (Identifier plan))
                         (ValueString (Kind plan))
                         (ValueString (Description plan)) ;;
    match err with
    | Some e =>
        ret (Diagnostics_AddError resp
               "Error Creating OAuth Client"
               ("Could not create OAuth client: " ++ Error e))
    | None =>
        created <- deref created ;;
        let plan :=
          {| ID := StringValue (strconv.FormatInt (OAuthClient.ID created));
             Name := Name plan;
             Identifier := Identifier plan;
             Kind := Kind plan;
             Description := StringValue (OAuthClient.Description created) |} in
        ret (State_Set resp plan)
    end.

Definition Read (r : t) (req : ReadRequest Model) (resp : Response Model)
  : M (Response Model) :=
  let state := Get_value (Read_State req) in
  let resp := Diagnostics_Append resp (Get_diags (Read_State req)) in
  if diag.HasError (Diagnostics resp) then ret resp
  else
    match strconv.ParseInt (ValueString (ID state)) with
    | (_, Some e) =>
        ret (Diagnostics_AddError resp
               "Error Parsing OAuth Client ID"
               ("Could not parse OAuth client ID: " ++ Error e))
    | (id, None) =>
        '(found, err) <- ReadOAuthClient (client r) id ;;
        match err with
        | Some e =>
            ret (Diagnostics_AddError resp
                   "Error Reading OAuth Client"
                   ("Could not read OAuth client: " ++ Error e))
        | None =>
            match found with
            | None => ret (State_RemoveResource resp)
            | Some found =>
                let state :=
                  {| ID := ID state;
                     Name := StringValue (OAuthClient.Name found);
                     Identifier := StringValue (OAuthClient.Identifier found);
                     Kind := StringValue (OAuthClient.Kind found);
                     Description := StringValue (OAuthClient.Description found) |} in
                ret (State_Set resp state)
            end
        end
    end.

Definition Update_Detail : string :=
  "The Zendesk API does not support updating OAuth clients. To change the configuration, you must create a new client.".

Definition Update (r : t) (req : UpdateRequest Model) (resp : Response Model)
  : M (Response Model) :=
  ret (Diagnostics_AddError resp "Update Not Supported" Update_Detail).

Definition Delete (r : t) (req : DeleteRequest Model) (resp : Response Model)
  : M (Response Model) :=
  let state := Get_value (Delete_State req) in
  let resp := Diagnostics_Append resp (Get_diags (Delete_State req)) in
  if diag.HasError (Diagnostics resp) then ret resp
  else
    match strconv.ParseInt (ValueString (ID state)) with
    | (_, Some e) =>
        ret (Diagnostics_AddError resp
               "Error Parsing OAuth Client ID"
               ("Could not parse OAuth client ID: " ++ Error e))
    | (id, None) =>
        err <- DeleteOAuthClient (client r) id ;;
        match err with
        | Some e =>
            ret (Diagnostics_AddError resp
                   "Error Deleting OAuth Client"
                   ("Could not delete OAuth client: " ++ Error e))
        | None => ret resp
        end
    end.

End Operations.
End OAuthClientResource.

(** ** The OAuth token resource *)

Module OAuthTokenResourceModel.
Record t := {
  ID : types.String_;
  ClientID : types.String_;
  Scopes : list types.String_;
  FullToken : types.String_;
  ExpiresAt : types.String_
}.
End OAuthTokenResourceModel.

Module OAuthTokenResource.
Import types tfsdk.
Import OAuthTokenResourceModel.

Record t := { client : option Client }.

Definition Model := OAuthTokenResourceModel.t.

(** [NewOAuthTokenResource]. *)
Definition New : t := {| client := None |}.

Definition Configure (r : t) (req : ConfigureRequest) (resp : ConfigureResponse)
  : t * ConfigureResponse :=
  match ProviderData req with
  | any_nil => (r, resp)
  | any_Client p => ({| client := p |}, resp)
  | other =>
      (r, {| Configure_Diagnostics :=
               diag.AddError (Configure_Diagnostics resp)
                 "Unexpected Resource Configure Type"
                 ("Expected *Client, got: " ++ type_name_of other
                    ++ ". Please report this issue to the provider developers.") |})
  end.

Section Operations.
Context {W : World}.

Definition Create (r : t) (req : CreateRequest Model) (resp : Response Model)
  : M (Response Model) :=
  let plan := Get_value (Create_Plan req) in
  let resp := Diagnostics_Append resp (Get_diags (Create_Plan req)) in
  if diag.HasError (Diagnostics resp) then ret resp
  else
    match strconv.ParseInt (ValueString (ClientID plan)) with
    | (_, Some e) =>
        ret (Diagnostics_AddError resp
               "Error Parsing Client ID"
               ("Could not parse client ID: " ++ Error e))
    | (clientID, None) =>
        let scopes := map ValueString (Scopes plan) in
        '(token, err) <- CreateOAuthToken (client r) clientID scopes
                           (ValueString (ExpiresAt plan)) ;;
        match err with
        | Some e =>
            ret (Diagnostics_AddError resp
                   "Error Creating OAuth Token"
                   ("Could not create OAuth token: " ++ Error e))
        | None =>
            token <- deref token ;;
            let plan :=
              {| ID := StringValue (strconv.FormatInt (OAuthToken.ID token));
                 ClientID := ClientID plan;
                 Scopes := Scopes plan;
                 FullToken := StringValue (OAuthToken.FullToken token);
                 ExpiresAt := StringValue (OAuthToken.ExpiresAt token) |} in
            ret (State_Set resp plan)
        end
    end.

Definition Read (r : t) (req : ReadRequest Model) (resp : Response Model)
  : M (Response Model) :=
  let state := Get_value (Read_State req) in
  let resp := Diagnostics_Append resp (Get_diags (Read_State req)) in
  if diag.HasError (Diagnostics resp) then ret resp
  else
    match strconv.ParseInt (ValueString (ID state)) with
    | (_, Some e) =>
        ret (Diagnostics_AddError resp
               "Error Parsing OAuth Token ID"
               ("Could not parse OAuth token ID: " ++ Error e))
    | (id, None) =>
        '(token, err) <- ReadOAuthToken (client r) id ;;
        match err with
        | Some e =>
            ret (Diagnostics_AddError resp
                   "Error Reading OAuth Token"
                   ("Could not read OAuth token: " ++ Error e))
        | None =>
            match token with
            | None => ret (State_RemoveResource resp)
            | Some token =>
                let state :=
                  {| ID := ID state;
                     ClientID :=
                       StringValue (strconv.FormatInt (OAuthToken.ClientID token));
                     Scopes := map StringValue (OAuthToken.Scopes token);
                     FullToken := FullToken state;
                     ExpiresAt := StringValue (OAuthToken.ExpiresAt token) |} in
                ret (State_Set resp state)
            end
        end
    end.

Definition Update_Detail : string :=
  "The Zendesk API does not support updating OAuth tokens. To change the configuration, you must create a new token.".

Definition Update (r : t) (req : UpdateRequest Model) (resp : Response Model)
  : M (Response Model) :=
  ret (Diagnostics_AddError resp "Update Not Supported" Update_Detail).

Definition Delete (r : t) (req : DeleteRequest Model) (resp : Response Model)
  : M (Response Model) :=
  let state := Get_value (Delete_State req) in
  let resp := Diagnostics_Append resp (Get_diags (Delete_State req)) in
  if diag.HasError (Diagnostics resp) then ret resp
  else
    match strconv.ParseInt (ValueString (ID state)) with
    | (_, Some e) =>
        ret (Diagnostics_AddError resp
               "Error Parsing OAuth Token ID"
               ("Could not parse OAuth token ID: " ++ Error e))
    | (id, None) =>
        err <- DeleteOAuthToken (client r) id ;;
        match err with
        | Some e =>
            ret (Diagnostics_AddError resp
                   "Error Deleting OAuth Token"
                   ("Could not delete OAuth token: " ++ Error e))
        | None => ret resp
        end
    end.

End Operations.
End OAuthTokenResource.

(** ** The provider *)

Module ZendeskProviderModel.
Record t := {
  Subdomain : types.String_;
  Email : types.String_;
  APIToken : types.String_
}.
End ZendeskProviderModel.

Module ZendeskProvider.
Import types.
Import ZendeskProviderModel.

(** [provider.ConfigureResponse]. *)
Record ConfigureResponse := {
  Diagnostics : diag.Diagnostics;
  DataSourceData : any;
  ResourceData : any
}.

Definition with_Diagnostics (resp : ConfigureResponse) (ds : diag.Diagnostics)
  : ConfigureResponse :=
  {| Diagnostics := ds;
     DataSourceData := DataSourceData resp;
     ResourceData := ResourceData resp |}.

(** [Configure].  [Getenv] is [os.Getenv].  The function ends where the
    source has its [TODO]: no statement constructs the client or assigns
    [DataSourceData] or [ResourceData]. *)
Definition Configure (Getenv : string -> string)
  (Config : tfsdk.Data ZendeskProviderModel.t) (resp : ConfigureResponse)
  : ConfigureResponse :=
  let config := tfsdk.Get_value Config in
  let ds := diag.Append (Diagnostics resp) (tfsdk.Get_diags Config) in
  if diag.HasError ds then with_Diagnostics resp ds
  else
    let ds :=
      if IsUnknown (Subdomain config)
      then diag.AddAttributeError ds "subdomain" "Unknown Zendesk subdomain"
             "The provider cannot create the Zendesk API client as the subdomain is unknown."
      else ds in
    let ds :=
      if IsUnknown (Email config)
      then diag.AddAttributeError ds "email" "Unknown Zendesk email"
             "The provider cannot create the Zendesk API client as the email is unknown."
      else ds in
    let ds :=
      if IsUnknown (APIToken config)
      then diag.AddAttributeError ds "api_token" "Unknown Zendesk API token"
             "The provider cannot create the Zendesk API client as the API token is unknown."
      else ds in
    if diag.HasError ds then with_Diagnostics resp ds
    else
      let subdomain := Getenv "ZENDESK_SUBDOMAIN" in
      let email := Getenv "ZENDESK_EMAIL" in
      let apiToken := Getenv "ZENDESK_API_TOKEN" in
      let subdomain :=
        if negb (IsNull (Subdomain config))
        then ValueString (Subdomain config) else subdomain in
      let email :=
        if negb (IsNull (Email config))
        then ValueString (Email config) else email in
      let apiToken :=
        if negb (IsNull (APIToken config))
        then ValueString (APIToken config) else apiToken in
      let ds :=
        if String.eqb subdomain ""
        then diag.AddAttributeError ds "subdomain" "Missing Zendesk subdomain"
               "The provider cannot create the Zendesk API client as the subdomain is missing."
        else ds in
      let ds :=
        if String.eqb email ""
        then diag.AddAttributeError ds "email" "Missing Zendesk email"
               "The provider cannot create the Zendesk API client as the email is missing."
        else ds in
      let ds :=
        if String.eqb apiToken ""
        then diag.AddAttributeError ds "api_token" "Missing Zendesk API token"
               "The provider cannot create the Zendesk API client as the API token is missing."
        else ds in
      if diag.HasError ds then with_Diagnostics resp ds
      else with_Diagnostics resp ds.

(** The three values after explicit configuration is merged over the
    environment, as [Configure] computes them. *)
Definition merged (Getenv : string -> string) (explicit : String_) (variable : string)
  : string :=
  if negb (IsNull explicit) then ValueString explicit else Getenv variable.

(** The response the framework hands to [Configure]. *)
Definition fresh_response : ConfigureResponse :=
  {| Diagnostics := []; DataSourceData := any_nil; ResourceData := any_nil |}.

(** The framework creates each resource of [Resources] with its constructor
    and configures it with the provider's [ResourceData]. *)
Definition configured_OAuthClientResource (presp : ConfigureResponse)
  : OAuthClientResource.t * resource.ConfigureResponse :=
  OAuthClientResource.Configure OAuthClientResource.New
    {| ProviderData := ResourceData presp |}
    {| Configure_Diagnostics := [] |}.

Definition configured_OAuthTokenResource (presp : ConfigureResponse)
  : OAuthTokenResource.t * resource.ConfigureResponse :=
  OAuthTokenResource.Configure OAuthTokenResource.New
    {| ProviderData := ResourceData presp |}
    {| Configure_Diagnostics := [] |}.

End ZendeskProvider.

(** ** The framework's refresh loop *)

Section Refresh.
Context {W : World}.

(** [n] successive refreshes of a tracked token: each read starts from the
    state the previous one left, and a resource that is no longer tracked is
    not read again. *)
Fixpoint token_refreshes (r : OAuthTokenResource.t) (n : nat)
  (st : option OAuthTokenResource.Model) : M (option OAuthTokenResource.Model) :=
  match n with
  | O => ret st
  | S n' =>
      match st with
      | None => ret None
      | Some s =>
          resp <- OAuthTokenResource.Read r
                    {| Read_State := {| tfsdk.Get_diags := []; tfsdk.Get_value := s |} |}
                    {| tfsdk.State := Some s; tfsdk.Diagnostics := [] |} ;;
          token_refreshes r n' (tfsdk.State resp)
      end
  end.

End Refresh.

(** ** Observations on a run *)

Section Observations.
Context {W : World}.

(** The trace [t'] extends [t] by one request, which was answered by
    [resp]. *)
Definition received (t t' : Trace) (resp : HttpResponse) : Prop :=
  exists req, t' = (t ++ [req])%list /\ http_RoundTrip t req = inr resp.


End Observations.


(** ** What the specification says the create body is *)

(** The body of section 6: the four caller-supplied fields under a single
    [client] key. *)
Definition spec_create_client_body (name identifier kind description : string)
  : json.value :=
  json.Object
    [("client",
      json.Object [("name", json.String_ name);
                   ("identifier", json.String_ identifier);
                   ("kind", json.String_ kind);
                   ("description", json.String_ description)])].

(** The body [CreateOAuthClient] marshals. *)
Definition create_client_body (name identifier kind description : string)
  : json.value :=
  json.Object
    [("client",
      json.Object
        ([("id", json.Number "0");
          ("name", json.String_ name);
          ("identifier", json.String_ identifier);
          ("kind", json.String_ kind)]
         ++ (if String.eqb description "" then []
             else [("description", json.String_ description)]))%list)].

(** ** Which fields a response body mentions *)

Section Mentions.
Context {W : World}.






End Mentions.

(** ** Concrete worlds and inputs *)

Module fixture.

Definition dq : string := String (ascii_of_nat 34) EmptyString.

(** The text of a document whose strings need no escaping. *)
Fixpoint render (v : json.value) : string :=
  match v with
  | json.Null => "null"
  | json.Bool true => "true"
  | json.Bool false => "false"
  | json.Number lit => lit
  | json.String_ s => dq ++ s ++ dq
  | json.Array elems =>
      "[" ++ (fix go (l : list json.value) : string :=
                match l with
                | [] => ""
                | [x] => render x
                | x :: rest => render x ++ "," ++ go rest
                end) elems ++ "]"
  | json.Object ms =>
      "{" ++ (fix go (l : list (string * json.value)) : string :=
                match l with
                | [] => ""
                | [(k, x)] => dq ++ k ++ dq ++ ":" ++ render x
                | (k, x) :: rest => dq ++ k ++ dq ++ ":" ++ render x ++ "," ++ go rest
                end) ms ++ "}"
  end.

Definition lower (c : ascii) : ascii :=
  let n := N_of_ascii c in
  if ((65 <=? n) && (n <=? 90))%N then ascii_of_N (n + 32) else c.

Fixpoint fold (s : string) : string :=
  match s with
  | EmptyString => EmptyString
  | String c rest => String (lower c) (fold rest)
  end.

(** A world whose server gives the same answer to every request and whose
    scanner knows the listed documents. *)
Definition world (answer : error + HttpResponse) (documents : list json.value)
  : World :=
  {| http_RoundTrip := fun _ _ => answer;
     url_Parse := fun _ => None;
     json_Scan := fun body =>
       match find (fun v => String.eqb (render v) body) documents with
       | Some v => inr v
       | None => inl (json_SyntaxError "invalid character looking for beginning of value")
       end;
     json_foldName := fold;
     strconv_Quote := fun s => dq ++ s ++ dq |}.

Definition acme : Client :=
  {| subdomain := "acme"; email := "admin@acme.test"; apiToken := "secret" |}.

Definition client_plan : OAuthClientResource.Model :=
  {| OAuthClientResourceModel.ID := types.unknown;
     OAuthClientResourceModel.Name := types.known "Basic Client";
     OAuthClientResourceModel.Identifier := types.known "basic_client";
     OAuthClientResourceModel.Kind := types.known "public";
     OAuthClientResourceModel.Description := types.known "from the plan" |}.

Definition client_state (id : string) : OAuthClientResource.Model :=
  {| OAuthClientResourceModel.ID := types.known id;
     OAuthClientResourceModel.Name := types.known "Basic Client";
     OAuthClientResourceModel.Identifier := types.known "basic_client";
     OAuthClientResourceModel.Kind := types.known "public";
     OAuthClientResourceModel.Description := types.null |}.

Definition token_plan (client_id : string) : OAuthTokenResource.Model :=
  {| OAuthTokenResourceModel.ID := types.unknown;
     OAuthTokenResourceModel.ClientID := types.known client_id;
     OAuthTokenResourceModel.Scopes := [types.known "read"];
     OAuthTokenResourceModel.FullToken := types.unknown;
     OAuthTokenResourceModel.ExpiresAt := types.known "2024-12-31T23:59:59Z" |}.

Definition token_state (id : string) : OAuthTokenResource.Model :=
  {| OAuthTokenResourceModel.ID := types.known id;
     OAuthTokenResourceModel.ClientID := types.known "42";
     OAuthTokenResourceModel.Scopes := [types.known "read"];
     OAuthTokenResourceModel.FullToken := types.known "tok-at-creation";
     OAuthTokenResourceModel.ExpiresAt := types.null |}.

Definition data {T} (v : T) : tfsdk.Data T :=
  {| tfsdk.Get_diags := []; tfsdk.Get_value := v |}.

Definition empty_response {T} (st : option T) : tfsdk.Response T :=
  {| tfsdk.State := st; tfsdk.Diagnostics := [] |}.

(** A create response that echoes no [description]. *)
Definition created_client_doc : json.value :=
  json.Object
    [("client",
      json.Object [("id", json.Number "42");
                   ("name", json.String_ "Basic Client");
                   ("identifier", json.String_ "basic_client");
                   ("kind", json.String_ "public")])].

(** A create response that echoes no [expires_at]. *)
Definition created_token_doc : json.value :=
  json.Object
    [("token",
      json.Object [("id", json.Number "7");
                   ("client_id", json.Number "42");
                   ("scopes", json.Array [json.String_ "read"]);
                   ("full_token", json.String_ "s3cr3t")])].

(** A read response for a token; the server does not echo the secret. *)
Definition read_token_doc : json.value :=
  json.Object
    [("token",
      json.Object [("id", json.Number "7");
                   ("client_id", json.Number "42");
                   ("scopes", json.Array [json.String_ "read"; json.String_ "write"]);
                   ("expires_at", json.String_ "2030-01-01T00:00:00Z")])].

Definition response (status : Z) (body : string) : error + HttpResponse :=
  inr {| StatusCode := status; RespBody := body |}.

Definition provider_config : tfsdk.Data ZendeskProviderModel.t :=
  data {| ZendeskProviderModel.Subdomain := types.known "acme";
          ZendeskProviderModel.Email := types.known "admin@acme.test";
          ZendeskProviderModel.APIToken := types.known "secret" |}.

Definition no_environment (variable : string) : string := "".

Definition not_found_world : World := world (response 404 "") [].

Definition failing_world : World := world (response 500 "boom") [].

Definition created_client_world : World :=
  world (response 201 (render created_client_doc)) [created_client_doc].

Definition created_token_world : World :=
  world (response 201 (render created_token_doc)) [created_token_doc].

Definition read_token_world : World :=
  world (response 200 (render read_token_doc)) [read_token_doc].

Definition client_resource : OAuthClientResource.t :=
  {| OAuthClientResource.client := Some acme |}.

Definition token_resource : OAuthTokenResource.t :=
  {| OAuthTokenResource.client := Some acme |}.

End fixture.

(** ** The six operations of the API client, taken together *)

Inductive Operation :=
| OpCreateOAuthClient (name identifier kind description : string)
| OpReadOAuthClient (id : Z)
| OpDeleteOAuthClient (id : Z)
| OpCreateOAuthToken (clientID : Z) (scopes : list string) (expiresAt : string)
| OpReadOAuthToken (id : Z)
| OpDeleteOAuthToken (id : Z).



(** Runs an operation and keeps the [error] it returns. *)
Definition returned_error {W : World} (op : Operation) (c : option Client)
  : M (option error) :=
  match op with
  | OpCreateOAuthClient n i k d =>
      '(_, err) <- CreateOAuthClient c n i k d ;; ret err
  | OpReadOAuthClient id =>
      '(_, err) <- ReadOAuthClient c id ;; ret err
  | OpDeleteOAuthClient id => DeleteOAuthClient c id
  | OpCreateOAuthToken cid scopes ex =>
      '(_, err) <- CreateOAuthToken c cid scopes ex ;; ret err
  | OpReadOAuthToken id =>
      '(_, err) <- ReadOAuthToken c id ;; ret err
  | OpDeleteOAuthToken id => DeleteOAuthToken c id
  end.

(** What a failed id parse leaves behind: the operation returned normally
    with response [resp1], the trace is still [t], the state is the one of
    [resp0], an error diagnostic is present, and, unless the decoding of the
    request had already reported an error, it is the parse diagnostic with
    the given summary and detail. *)
Definition aborted_on_parse {T} (run : Res (tfsdk.Response T) * Trace) (t : Trace)
  (resp0 : tfsdk.Response T) (decode_diags : diag.Diagnostics)
  (summary detail : string) : Prop :=
  exists resp1,
    run = (Ok resp1, t)
    /\ tfsdk.State resp1 = tfsdk.State resp0
    /\ diag.HasError (tfsdk.Diagnostics resp1) = true
    /\ (diag.HasError (diag.Append (tfsdk.Diagnostics resp0) decode_diags) = false ->
        In (diag.NewErrorDiagnostic summary detail) (tfsdk.Diagnostics resp1)).

(** An adapter whose client is nil panics as soon as an operation reaches
    its API client call. *)
Definition panics_at_client_call {T} (run : Res (tfsdk.Response T) * Trace) (t : Trace)
  : Prop :=
  run = (Panic nil_dereference, t).

(** ** Metadata and the provider's resource list *)

Module resourceMetadata.
Record Request := { ProviderTypeName : string }.
Record Response := { TypeName : string }.
End resourceMetadata.

Module providerMetadata.
Record Response := { TypeName : string; Version : string }.
End providerMetadata.

(** [OAuthClientResource.Metadata]. *)
Definition OAuthClientResource_Metadata (req : resourceMetadata.Request)
  (resp : resourceMetadata.Response) : resourceMetadata.Response :=
  {| resourceMetadata.TypeName :=
       resourceMetadata.ProviderTypeName req ++ "_oauth_client" |}.

(** [OAuthTokenResource.Metadata]. *)
Definition OAuthTokenResource_Metadata (req : resourceMetadata.Request)
  (resp : resourceMetadata.Response) : resourceMetadata.Response :=
  {| resourceMetadata.TypeName :=
       resourceMetadata.ProviderTypeName req ++ "_oauth_token" |}.

(** [ZendeskProvider.Metadata], for the provider [New version] builds. *)
Definition ZendeskProvider_Metadata (version : string)
  (resp : providerMetadata.Response) : providerMetadata.Response :=
  {| providerMetadata.TypeName := "zendesk";
     providerMetadata.Version := version |}.

(** ** Requests, operation by operation *)

Definition request_method (op : Operation) : string :=
  match op with
  | OpCreateOAuthClient _ _ _ _ | OpCreateOAuthToken _ _ _ => "POST"
  | OpReadOAuthClient _ | OpReadOAuthToken _ => "GET"
  | OpDeleteOAuthClient _ | OpDeleteOAuthToken _ => "DELETE"
  end.

Definition request_url (op : Operation) (c : Client) : string :=
  match op with
  | OpCreateOAuthClient _ _ _ _ => clients_url c
  | OpReadOAuthClient id | OpDeleteOAuthClient id => client_url c id
  | OpCreateOAuthToken _ _ _ => tokens_url c
  | OpReadOAuthToken id | OpDeleteOAuthToken id => token_url c id
  end.

Definition is_create (op : Operation) : bool :=
  match op with
  | OpCreateOAuthClient _ _ _ _ | OpCreateOAuthToken _ _ _ => true
  | _ => false
  end.

(** Between the traces [t] and [t'] [c.http.Do] was called at most once. *)
Definition at_most_one_Do_call (t t' : Trace) : Prop :=
  t' = t \/ exists req, t' = (t ++ [req])%list.

(** The body [CreateOAuthToken] marshals. *)
Definition create_token_body (clientID : Z) (scopes : list string)
  (expiresAt : string) : json.value :=
  json.Object
    [("token",
      json.Object
        ([("id", json.Number "0");
          ("client_id", json.Number (strconv.FormatInt clientID));
          ("user_id", json.Number "0");
          ("scopes", json.Array (map json.String_ scopes))]
         ++ (if String.eqb expiresAt "" then []
             else [("expires_at", json.String_ expiresAt)]))%list)].

(** ** Integers and their decimal form *)

Definition in_int64 (i : Z) : Prop := - 2 ^ 63 <= i < 2 ^ 63.

(** The number a decimal reads as, after the digits already read gave
    [n]. *)
Fixpoint uint_value (d : Decimal.uint) (n : Z) : Z :=
  match d with
  | Decimal.Nil => n
  | Decimal.D0 l => uint_value l (10 * n)
  | Decimal.D1 l => uint_value l (10 * n + 1)
  | Decimal.D2 l => uint_value l (10 * n + 2)
  | Decimal.D3 l => uint_value l (10 * n + 3)
  | Decimal.D4 l => uint_value l (10 * n + 4)
  | Decimal.D5 l => uint_value l (10 * n + 5)
  | Decimal.D6 l => uint_value l (10 * n + 6)
  | Decimal.D7 l => uint_value l (10 * n + 7)
  | Decimal.D8 l => uint_value l (10 * n + 8)
  | Decimal.D9 l => uint_value l (10 * n + 9)
  end.

(** ** More concrete worlds *)

Module fixture2.
Import fixture.

(** A world whose transport fails on every request. *)
Definition unreachable_world : World :=
  world (inl (url_Error "dial tcp: lookup acme.zendesk.com: no such host")) [].

(** A world in which no URL is accepted. *)
Definition no_url_world : World :=
  {| http_RoundTrip := fun _ _ => response 200 "";
     url_Parse := fun _ => Some (url_Error "invalid character in host name");
     json_Scan := fun _ => inl (json_SyntaxError "unexpected end of JSON input");
     json_foldName := fold;
     strconv_Quote := fun s => dq ++ s ++ dq |}.

Definition deleted_world : World := world (response 204 "") [].

Definition a_client : OAuthClient.t :=
  {| OAuthClient.ID := 42; OAuthClient.Name := "Basic Client";
     OAuthClient.Identifier := "basic_client"; OAuthClient.Kind := "public";
     OAuthClient.Description := "a description" |}.

Definition a_token : OAuthToken.t :=
  {| OAuthToken.ID := 7; OAuthToken.ClientID := 42; OAuthToken.UserID := 3;
     OAuthToken.Scopes := ["read"; "write"]; OAuthToken.FullToken := "s3cr3t";
     OAuthToken.ExpiresAt := "" |}.

Definition client_doc : json.value :=
  oauthClientWrapperJSON.Marshal {| wrapper_Client := a_client |}.

Definition token_doc : json.value :=
  oauthTokenWrapperJSON.Marshal {| wrapper_Token := a_token |}.

(** A server that answers a read with the marshalled form of a record. *)
Definition read_client_world : World :=
  world (response 200 (render client_doc)) [client_doc].

Definition echo_token_world : World :=
  world (response 200 (render token_doc)) [token_doc].


(** A 201 response whose id is a string. *)
Definition string_id_doc : json.value :=
  json.Object [("client", json.Object [("id", json.String_ "42")])].

Definition string_id_world : World :=
  world (response 201 (render string_id_doc)) [string_id_doc].

Definition environment (variable : string) : string :=
  if String.eqb variable "ZENDESK_SUBDOMAIN" then "envsub"
  else if String.eqb variable "ZENDESK_EMAIL" then "env@acme.test"
  else if String.eqb variable "ZENDESK_API_TOKEN" then "envtoken"
  else "".

Definition null_config : tfsdk.Data ZendeskProviderModel.t :=
  data {| ZendeskProviderModel.Subdomain := types.null;
          ZendeskProviderModel.Email := types.null;
          ZendeskProviderModel.APIToken := types.null |}.

End fixture2.

(** ** Valid UTF-8 *)

Module utf8.

Definition between (lo hi : N) (c : ascii) : bool :=
  ((lo <=? N_of_ascii c) && (N_of_ascii c <=? hi))%N.

Definition continuation (c : ascii) : bool := between 128 191 c.

(** The second byte a three-byte lead admits. *)
Definition second_of_three (a b : ascii) : bool :=
  (between 224 224 a && between 160 191 b)
  || (between 225 236 a && continuation b)
  || (between 237 237 a && between 128 159 b)
  || (between 238 239 a && continuation b).

(** The second byte a four-byte lead admits. *)
Definition second_of_four (a b : ascii) : bool :=
  (between 240 240 a && between 144 191 b)
  || (between 241 243 a && continuation b)
  || (between 244 244 a && between 128 143 b).

(** [utf8.ValidString]: every byte belongs to a well-formed encoding of a
    code point (no overlong form, no surrogate, nothing above U+10FFFF). *)
Fixpoint ValidString (s : string) : bool :=
  match s with
  | EmptyString => true
  | String a s1 =>
      if between 0 127 a then ValidString s1
      else
        match s1 with
        | EmptyString => false
        | String b s2 =>
            if between 194 223 a then continuation b && ValidString s2
            else
              match s2 with
              | EmptyString => false
              | String c s3 =>
                  if second_of_three a b then continuation c && ValidString s3
                  else
                    match s3 with
                    | EmptyString => false
                    | String d s4 =>
                        second_of_four a b && continuation c
                        && continuation d && ValidString s4
                    end
              end
        end
  end.

End utf8.

(** What [json.Marshal] gives for a token wrapper whose [Scopes] is the
    [nil] slice: [null] in the place of the array. *)
Definition token_envelope_nil_scopes (k : OAuthToken.t) : json.value :=
  json.Object
    [("token",
      json.Object
        ([("id", json.Number (strconv.FormatInt (OAuthToken.ID k)));
          ("client_id", json.Number (strconv.FormatInt (OAuthToken.ClientID k)));
          ("user_id", json.Number (strconv.FormatInt (OAuthToken.UserID k)));
          ("scopes", json.Null)]
         ++ (if String.eqb (OAuthToken.FullToken k) "" then []
             else [("full_token", json.String_ (OAuthToken.FullToken k))])
         ++ (if String.eqb (OAuthToken.ExpiresAt k) "" then []
             else [("expires_at", json.String_ (OAuthToken.ExpiresAt k))]))%list)].

(** The strings of a record are valid UTF-8. *)
Definition client_strings_valid (c : OAuthClient.t) : bool :=
  utf8.ValidString (OAuthClient.Name c)
  && utf8.ValidString (OAuthClient.Identifier c)
  && utf8.ValidString (OAuthClient.Kind c)
  && utf8.ValidString (OAuthClient.Description c).

Definition token_strings_valid (k : OAuthToken.t) : bool :=
  forallb utf8.ValidString (OAuthToken.Scopes k)
  && utf8.ValidString (OAuthToken.FullToken k)
  && utf8.ValidString (OAuthToken.ExpiresAt k).

(** ** Shapes of a response body *)

Section BodyShapes.
Context {W : World}.



End BodyShapes.


(** ** Worlds for the envelope and for a nil slice *)

Module fixture3.
Import fixture.

(** A token whose [Scopes] is the [nil] slice. *)
Definition nil_scopes_token : OAuthToken.t :=
  {| OAuthToken.ID := 9; OAuthToken.ClientID := 42; OAuthToken.UserID := 3;
     OAuthToken.Scopes := []; OAuthToken.FullToken := "";
     OAuthToken.ExpiresAt := "2030-01-01T00:00:00Z" |}.

Definition nil_scopes_doc : json.value :=
  token_envelope_nil_scopes nil_scopes_token.

Definition nil_scopes_world : World :=
  world (response 200 (render nil_scopes_doc)) [nil_scopes_doc].




End fixture3.

(** * Properties *)

(** ** Diagnostics *)

Module diag_facts.
Import diag.

Lemma Severity_eqb_eq a b : Severity_eqb a b = true -> a = b.
Proof. destruct a, b; simpl; congruence. Qed.

Lemma Equal_eq a b : Equal a b = true -> a = b.
Proof.
  destruct a as [sa ma da pa], b as [sb mb db pb]; unfold Equal; simpl.
  intros H.
  apply andb_prop in H as [H Hp].
  apply andb_prop in H as [H Hd].
  apply andb_prop in H as [Hs Hm].
  apply Severity_eqb_eq in Hs.
  apply String.eqb_eq in Hm, Hd.
  subst.
  destruct pa as [p|], pb as [q|]; try discriminate.
  - apply String.eqb_eq in Hp. now subst.
  - reflexivity.
Qed.

Lemma Contains_In ds d : Contains ds d = true -> In d ds.
Proof.
  unfold Contains. intros H.
  apply existsb_exists in H as (x & Hx & He).
  apply Equal_eq in He. now subst.
Qed.

Lemma Append_keeps ds new x : In x ds -> In x (Append ds new).
Proof.
  revert ds. induction new as [|d rest IH]; intros ds Hx; simpl; auto.
  destruct (Contains ds d); apply IH; auto.
  apply in_or_app. now left.
Qed.

Lemma Append_adds ds new x : In x new -> In x (Append ds new).
Proof.
  revert ds. induction new as [|d rest IH]; intros ds Hx; simpl in *.
  - contradiction.
  - destruct Hx as [->|Hx].
    + destruct (Contains ds x) eqn:E.
      * apply Append_keeps. now apply Contains_In.
      * apply Append_keeps. apply in_or_app. right. now left.
    + destruct (Contains ds d); now apply IH.
Qed.

Lemma HasError_In ds d : In d ds -> is_error d = true -> HasError ds = true.
Proof.
  intros Hin He. unfold HasError. apply existsb_exists. eauto.
Qed.

Lemma AddError_In ds summary detail :
  In (NewErrorDiagnostic summary detail) (AddError ds summary detail).
Proof. unfold AddError. apply Append_adds. now left. Qed.

Lemma AddError_HasError ds summary detail :
  HasError (AddError ds summary detail) = true.
Proof.
  apply HasError_In with (d := NewErrorDiagnostic summary detail).
  - apply AddError_In.
  - reflexivity.
Qed.

Lemma Append_nil_has_no_error ds : HasError (Append [] ds) = false -> HasError ds = false.
Proof.
  intros H. destruct (HasError ds) eqn:E; auto.
  unfold HasError in E. apply existsb_exists in E as (x & Hx & He).
  rewrite (HasError_In (Append [] ds) x) in H; auto.
  now apply Append_adds.
Qed.

End diag_facts.

(** ** Traces *)

Lemma trace_grows_not_same (t : Trace) (req : HttpRequest) : t <> (t ++ [req])%list.
Proof.
  intros H. apply (f_equal (@List.length _)) in H.
  rewrite length_app in H. simpl in H. lia.
Qed.

Lemma trace_last_inj (t : Trace) (a b : HttpRequest) :
  (t ++ [a])%list = (t ++ [b])%list -> a = b.
Proof. intros H. apply app_inv_head in H. congruence. Qed.


(** ** The API client: one request, and what each answer leads to *)

Section ApiClientFacts.
Context {W : World}.

Lemma received_inv (t : Trace) (r0 : HttpRequest) (resp : HttpResponse) :
  received t (t ++ [r0])%list resp -> http_RoundTrip t r0 = inr resp.
Proof.
  intros (req & Ht & Hr). apply trace_last_inj in Ht. now subst.
Qed.

Lemma received_not_same (t : Trace) (resp : HttpResponse) : ~ received t t resp.
Proof. intros (req & Ht & _). now apply trace_grows_not_same in Ht. Qed.

(** Brings a run of an API operation, [E : op ... t = (out, t')], and the
    answer it received, [R : received t t' resp], to the branch the status
    selects. *)
Ltac api_run E R :=
  cbv [CreateOAuthClient ReadOAuthClient DeleteOAuthClient
       CreateOAuthToken ReadOAuthToken DeleteOAuthToken
       bind deref NewRequest http_Do ret panic] in E;
  repeat (cbv beta iota in E;
          match type of E with
          | context [match ?x with _ => _ end] =>
              lazymatch x with
              | context [match _ with _ => _ end] => fail
              | _ => destruct x eqn:?
              end
          end);
  cbv beta iota in E;
  inversion E; subst; clear E;
  try (exfalso; exact (received_not_same _ _ R));
  apply received_inv in R;
  repeat match goal with
         | H1 : http_RoundTrip ?t ?r = _, H2 : http_RoundTrip ?t ?r = _ |- _ =>
             rewrite H1 in H2; inversion H2; subst; clear H2
         end.

Ltac status_clash :=
  unfold StatusOK, StatusCreated, StatusNoContent, StatusNotFound in *;
  repeat match goal with
         | H : negb _ = true |- _ => apply negb_true_iff in H
         | H : negb _ = false |- _ => apply negb_false_iff in H
         | H : (_ =? _) = true |- _ => apply Z.eqb_eq in H
         | H : (_ =? _) = false |- _ => apply Z.eqb_neq in H
         end;
  try congruence; try lia.

Lemma ReadOAuthClient_not_found c id t out t' resp :
  ReadOAuthClient c id t = (out, t') -> received t t' resp ->
  StatusCode resp = StatusNotFound ->
  out = Ok (None, None).
Proof.
  intros E R Hs. api_run E R; try reflexivity; status_clash.
Qed.

Lemma ReadOAuthToken_not_found c id t out t' resp :
  ReadOAuthToken c id t = (out, t') -> received t t' resp ->
  StatusCode resp = StatusNotFound ->
  out = Ok (None, None).
Proof.
  intros E R Hs. api_run E R; try reflexivity; status_clash.
Qed.

Lemma CreateOAuthClient_unexpected c n i k d t out t' resp :
  CreateOAuthClient c n i k d t = (out, t') -> received t t' resp ->
  StatusCode resp <> StatusCreated ->
  out = Ok (None, Some (fmt_Errorf ("failed to create OAuth client: " ++ RespBody resp))).
Proof.
  intros E R Hs. api_run E R; try reflexivity; status_clash.
Qed.

Lemma ReadOAuthClient_unexpected c id t out t' resp :
  ReadOAuthClient c id t = (out, t') -> received t t' resp ->
  StatusCode resp <> StatusOK -> StatusCode resp <> StatusNotFound ->
  out = Ok (None, Some (fmt_Errorf ("failed to read OAuth client: " ++ RespBody resp))).
Proof.
  intros E R Hs Hn. api_run E R; try reflexivity; status_clash.
Qed.

Lemma DeleteOAuthClient_unexpected c id t out t' resp :
  DeleteOAuthClient c id t = (out, t') -> received t t' resp ->
  StatusCode resp <> StatusNoContent ->
  out = Ok (Some (fmt_Errorf ("failed to delete OAuth client: " ++ RespBody resp))).
Proof.
  intros E R Hs. api_run E R; try reflexivity; status_clash.
Qed.

Lemma CreateOAuthToken_unexpected c cid sc ex t out t' resp :
  CreateOAuthToken c cid sc ex t = (out, t') -> received t t' resp ->
  StatusCode resp <> StatusCreated ->
  out = Ok (None, Some (fmt_Errorf ("failed to create OAuth token: " ++ RespBody resp))).
Proof.
  intros E R Hs. api_run E R; try reflexivity; status_clash.
Qed.

Lemma ReadOAuthToken_unexpected c id t out t' resp :
  ReadOAuthToken c id t = (out, t') -> received t t' resp ->
  StatusCode resp <> StatusOK -> StatusCode resp <> StatusNotFound ->
  out = Ok (None, Some (fmt_Errorf ("failed to read OAuth token: " ++ RespBody resp))).
Proof.
  intros E R Hs Hn. api_run E R; try reflexivity; status_clash.
Qed.

Lemma DeleteOAuthToken_unexpected c id t out t' resp :
  DeleteOAuthToken c id t = (out, t') -> received t t' resp ->
  StatusCode resp <> StatusNoContent ->
  out = Ok (Some (fmt_Errorf ("failed to delete OAuth token: " ++ RespBody resp))).
Proof.
  intros E R Hs. api_run E R; try reflexivity; status_clash.
Qed.

(** A create that got its expected status returns what the body decodes
    to. *)
Lemma CreateOAuthClient_created c n i k d t out t' resp :
  CreateOAuthClient c n i k d t = (out, t') -> received t t' resp ->
  StatusCode resp = StatusCreated ->
  out = Ok match Decode_oauthClientWrapper (RespBody resp) with
           | inl err => (None, Some err)
           | inr result => (Some (wrapper_Client result), None)
           end.
Proof.
  intros E R Hs. api_run E R;
    repeat match goal with
           | H : ?x = _ |- context [match ?x with _ => _ end] => rewrite H
           end;
    try reflexivity; status_clash.
Qed.

Lemma CreateOAuthToken_created c cid sc ex t out t' resp :
  CreateOAuthToken c cid sc ex t = (out, t') -> received t t' resp ->
  StatusCode resp = StatusCreated ->
  out = Ok match Decode_oauthTokenWrapper (RespBody resp) with
           | inl err => (None, Some err)
           | inr result => (Some (wrapper_Token result), None)
           end.
Proof.
  intros E R Hs. api_run E R;
    repeat match goal with
           | H : ?x = _ |- context [match ?x with _ => _ end] => rewrite H
           end;
    try reflexivity; status_clash.
Qed.

Lemma ReadOAuthToken_ok c id t out t' resp :
  ReadOAuthToken c id t = (out, t') -> received t t' resp ->
  StatusCode resp = StatusOK ->
  out = Ok match Decode_oauthTokenWrapper (RespBody resp) with
           | inl err => (None, Some err)
           | inr result => (Some (wrapper_Token result), None)
           end.
Proof.
  intros E R Hs. api_run E R;
    repeat match goal with
           | H : ?x = _ |- context [match ?x with _ => _ end] => rewrite H
           end;
    try reflexivity; status_clash.
Qed.

(** A create never returns a nil record together with a nil error. *)
Lemma CreateOAuthClient_some c n i k d t x t' :
  CreateOAuthClient c n i k d t = (Ok (x, None), t') -> exists v, x = Some v.
Proof.
  intros E.
  cbv [CreateOAuthClient bind deref NewRequest http_Do ret panic] in E.
  repeat (cbv beta iota in E;
          match type of E with
          | context [match ?x with _ => _ end] =>
              lazymatch x with
              | context [match _ with _ => _ end] => fail
              | _ => destruct x eqn:?
              end
          end);
  cbv beta iota in E; inversion E; eauto.
Qed.

Lemma CreateOAuthToken_some c cid sc ex t x t' :
  CreateOAuthToken c cid sc ex t = (Ok (x, None), t') -> exists v, x = Some v.
Proof.
  intros E.
  cbv [CreateOAuthToken bind deref NewRequest http_Do ret panic] in E.
  repeat (cbv beta iota in E;
          match type of E with
          | context [match ?x with _ => _ end] =>
              lazymatch x with
              | context [match _ with _ => _ end] => fail
              | _ => destruct x eqn:?
              end
          end);
  cbv beta iota in E; inversion E; eauto.
Qed.

(** *** What an operation does with the answer to its request *)










End ApiClientFacts.

(** ** The adapters *)

Section AdapterFacts.
Context {W : World}.
Import tfsdk.

(** Brings a run of an adapter operation, [E : op r req resp t = (out, t')],
    to its leaves, keeping the equation of every branch taken. *)
Ltac adapter_run E :=
  cbv [OAuthClientResource.Create OAuthClientResource.Read
       OAuthClientResource.Delete OAuthClientResource.Update
       OAuthTokenResource.Create OAuthTokenResource.Read
       OAuthTokenResource.Delete OAuthTokenResource.Update
       returned_error bind deref ret panic] in E;
  repeat (cbv beta iota in E;
          match type of E with
          | context [match ?x with _ => _ end] =>
              lazymatch x with
              | context [match _ with _ => _ end] => fail
              | _ => destruct x eqn:?
              end
          end);
  cbv beta iota in E;
  inversion E; subst; clear E.

Ltac no_request R := exfalso; exact (received_not_same _ _ R).

(** Opens an adapter operation in the goal up to its API client call,
    using [Hok], which says that decoding the request reported no error, and
    [Hrun], the run of the API client call. *)
Ltac into_api_call Hok Hrun :=
  cbv [OAuthClientResource.Create OAuthClientResource.Read
       OAuthClientResource.Delete
       OAuthTokenResource.Create OAuthTokenResource.Read
       OAuthTokenResource.Delete bind ret];
  cbv beta iota zeta;
  match goal with
  | |- context [diag.HasError (Diagnostics (Diagnostics_Append ?r ?d))] =>
      let Herr := fresh "Herr" in
      destruct (diag.HasError (Diagnostics (Diagnostics_Append r d))) eqn:Herr;
      [ exfalso; exact (Bool.diff_false_true (eq_trans (eq_sym Hok) Herr)) | ]
  end;
  try match goal with
      | Hparse : strconv.ParseInt _ = (?id, None)
        |- context [strconv.ParseInt ?s] =>
          let Hq := fresh "Hq" in
          let Heq := fresh "Heq" in
          destruct (strconv.ParseInt s) as [v o] eqn:Hq;
          first [ pose proof (eq_trans (eq_sym Hq) Hparse) as Heq
                | pose proof Hparse as Heq ];
          inversion Heq; subst v o; clear Heq
      end;
  match goal with
  | |- context [let (_, _) := ?call in _] =>
      let Hq := fresh "Hq" in
      let Heq := fresh "Heq" in
      destruct call as [r0 t0] eqn:Hq;
      first [ pose proof (eq_trans (eq_sym Hq) Hrun) as Heq
            | pose proof Hrun as Heq ];
      inversion Heq; subst r0 t0; clear Heq
  end;
  cbv beta iota.

(** *** What create does with a 201 answer *)





Ltac parse_abort Hp :=
  unfold aborted_on_parse;
  cbv [OAuthClientResource.Read OAuthClientResource.Delete
       OAuthTokenResource.Create OAuthTokenResource.Read
       OAuthTokenResource.Delete ret];
  cbv beta iota zeta;
  match goal with
  | |- context [diag.HasError (Diagnostics (Diagnostics_Append ?r ?d))] =>
      destruct (diag.HasError (Diagnostics (Diagnostics_Append r d))) eqn:?
  end;
  [ eexists; split; [reflexivity|]; simpl in *;
    repeat split; auto;
    intros Hok; exfalso;
    match goal with
    | Ht : _ = true, Hf : _ = false |- _ =>
        exact (Bool.diff_false_true (eq_trans (eq_sym Hf) Ht))
    end
  | match goal with
    | |- context [strconv.ParseInt ?s] =>
        let Hq := fresh "Hq" in
        destruct (strconv.ParseInt s) as [v o] eqn:Hq;
        match type of Hp with
        | _ = Some ?e =>
            assert (o = Some e)
              by exact (eq_trans (f_equal snd (eq_sym Hq)) Hp)
        end;
        subst o
    end;
    eexists; split; [reflexivity|]; simpl;
    repeat split;
    auto using diag_facts.AddError_In, diag_facts.AddError_HasError ].

(** C6: when the id string an adapter operation has to parse is not an
    integer (the stored id for read and delete on both resources, the
    client_id of the plan for the token create), the operation returns with
    an error diagnostic and without issuing any HTTP request; this holds
    whatever client the adapter holds. *)
Theorem unparsable_id_aborts_before_any_request :
  (forall r req resp0 t e,
      snd (strconv.ParseInt
             (types.ValueString
                (OAuthClientResourceModel.ID (Get_value (Read_State req)))))
        = Some e ->
      aborted_on_parse (OAuthClientResource.Read r req resp0 t) t resp0
        (Get_diags (Read_State req))
        "Error Parsing OAuth Client ID"
        ("Could not parse OAuth client ID: " ++ Error e))
  /\
  (forall r req resp0 t e,
      snd (strconv.ParseInt
             (types.ValueString
                (OAuthClientResourceModel.ID (Get_value (Delete_State req)))))
        = Some e ->
      aborted_on_parse (OAuthClientResource.Delete r req resp0 t) t resp0
        (Get_diags (Delete_State req))
        "Error Parsing OAuth Client ID"
        ("Could not parse OAuth client ID: " ++ Error e))
  /\
  (forall r req resp0 t e,
      snd (strconv.ParseInt
             (types.ValueString
                (OAuthTokenResourceModel.ID (Get_value (Read_State req)))))
        = Some e ->
      aborted_on_parse (OAuthTokenResource.Read r req resp0 t) t resp0
        (Get_diags (Read_State req))
        "Error Parsing OAuth Token ID"
        ("Could not parse OAuth token ID: " ++ Error e))
  /\
  (forall r req resp0 t e,
      snd (strconv.ParseInt
             (types.ValueString
                (OAuthTokenResourceModel.ID (Get_value (Delete_State req)))))
        = Some e ->
      aborted_on_parse (OAuthTokenResource.Delete r req resp0 t) t resp0
        (Get_diags (Delete_State req))
        "Error Parsing OAuth Token ID"
        ("Could not parse OAuth token ID: " ++ Error e))
  /\
  (forall r req resp0 t e,
      snd (strconv.ParseInt
             (types.ValueString
                (OAuthTokenResourceModel.ClientID (Get_value (Create_Plan req)))))
        = Some e ->
      aborted_on_parse (OAuthTokenResource.Create r req resp0 t) t resp0
        (Get_diags (Create_Plan req))
        "Error Parsing Client ID"
        ("Could not parse client ID: " ++ Error e)).
Proof.
  repeat split; intros r req resp0 t e Hp; parse_abort Hp.
Qed.


(** C5: once the plan is decoded without error (and, for a token, its
    client_id parses), the adapter's create follows the API client's
    result.  If the API client returns a record and no error, the state
    written is the plan with the id set to the decimal form of the record's
    id and with the server's fields taken from the record (description for a
    client; full_token and expires_at for a token).  If the API client
    returns an error, the create returns with the error diagnostic added and
    the state as it was: nothing is written. *)
Theorem create_writes_state_only_on_success :
  (forall r req resp0 t x err t',
      let plan := Get_value (Create_Plan req) in
      let ds := diag.Append (Diagnostics resp0) (Get_diags (Create_Plan req)) in
      diag.HasError ds = false ->
      CreateOAuthClient (OAuthClientResource.client r)
        (types.ValueString (OAuthClientResourceModel.Name plan))
        (types.ValueString (OAuthClientResourceModel.Identifier plan))
        (types.ValueString (OAuthClientResourceModel.Kind plan))
        (types.ValueString (OAuthClientResourceModel.Description plan)) t
      = (Ok (x, err), t') ->
      match err with
      | None =>
          exists created,
            x = Some created
            /\ OAuthClientResource.Create r req resp0 t
               = (Ok {| State :=
                          Some {| OAuthClientResourceModel.ID :=
                                    types.known
                                      (strconv.FormatInt (OAuthClient.ID created));
                                  OAuthClientResourceModel.Name :=
                                    OAuthClientResourceModel.Name plan;
                                  OAuthClientResourceModel.Identifier :=
                                    OAuthClientResourceModel.Identifier plan;
                                  OAuthClientResourceModel.Kind :=
                                    OAuthClientResourceModel.Kind plan;
                                  OAuthClientResourceModel.Description :=
                                    types.known (OAuthClient.Description created) |};
                        Diagnostics := ds |}, t')
      | Some e =>
          exists resp1,
            OAuthClientResource.Create r req resp0 t = (Ok resp1, t')
            /\ State resp1 = State resp0
            /\ diag.HasError (Diagnostics resp1) = true
            /\ In (diag.NewErrorDiagnostic "Error Creating OAuth Client"
                     ("Could not create OAuth client: " ++ Error e))
                  (Diagnostics resp1)
      end)
  /\
  (forall r req resp0 t clientID x err t',
      let plan := Get_value (Create_Plan req) in
      let ds := diag.Append (Diagnostics resp0) (Get_diags (Create_Plan req)) in
      diag.HasError ds = false ->
      strconv.ParseInt (types.ValueString (OAuthTokenResourceModel.ClientID plan))
      = (clientID, None) ->
      CreateOAuthToken (OAuthTokenResource.client r) clientID
        (map types.ValueString (OAuthTokenResourceModel.Scopes plan))
        (types.ValueString (OAuthTokenResourceModel.ExpiresAt plan)) t
      = (Ok (x, err), t') ->
      match err with
      | None =>
          exists token,
            x = Some token
            /\ OAuthTokenResource.Create r req resp0 t
               = (Ok {| State :=
                          Some {| OAuthTokenResourceModel.ID :=
                                    types.known
                                      (strconv.FormatInt (OAuthToken.ID token));
                                  OAuthTokenResourceModel.ClientID :=
                                    OAuthTokenResourceModel.ClientID plan;
                                  OAuthTokenResourceModel.Scopes :=
                                    OAuthTokenResourceModel.Scopes plan;
                                  OAuthTokenResourceModel.FullToken :=
                                    types.known (OAuthToken.FullToken token);
                                  OAuthTokenResourceModel.ExpiresAt :=
                                    types.known (OAuthToken.ExpiresAt token) |};
                        Diagnostics := ds |}, t')
      | Some e =>
          exists resp1,
            OAuthTokenResource.Create r req resp0 t = (Ok resp1, t')
            /\ State resp1 = State resp0
            /\ diag.HasError (Diagnostics resp1) = true
            /\ In (diag.NewErrorDiagnostic "Error Creating OAuth Token"
                     ("Could not create OAuth token: " ++ Error e))
                  (Diagnostics resp1)
      end).
Proof.
  split.
  - intros r req resp0 t x err t' plan ds Hok Hrun.
    destruct err as [e|].
    + into_api_call Hok Hrun.
      eexists; split; [reflexivity|]; simpl.
      repeat split;
        auto using diag_facts.AddError_In, diag_facts.AddError_HasError.
    + destruct (CreateOAuthClient_some _ _ _ _ _ _ _ _ Hrun) as [created ->].
      exists created. split; [reflexivity|].
      into_api_call Hok Hrun. reflexivity.
  - intros r req resp0 t clientID x err t' plan ds Hok Hparse Hrun.
    destruct err as [e|].
    + into_api_call Hok Hrun.
      eexists; split; [reflexivity|]; simpl.
      repeat split;
        auto using diag_facts.AddError_In, diag_facts.AddError_HasError.
    + destruct (CreateOAuthToken_some _ _ _ _ _ _ _ Hrun) as [token ->].
      exists token. split; [reflexivity|].
      into_api_call Hok Hrun. reflexivity.
Qed.

(** A token read that returns a response either leaves the state of the
    response it was given, or removes the resource, or writes a state whose
    id and full_token are those of the state it read. *)
Lemma token_read_frame r req resp0 t resp1 t' s1 :
  OAuthTokenResource.Read r req resp0 t = (Ok resp1, t') ->
  State resp1 = Some s1 ->
  State resp0 = Some s1
  \/ (OAuthTokenResourceModel.FullToken s1
      = OAuthTokenResourceModel.FullToken (Get_value (Read_State req))
      /\ OAuthTokenResourceModel.ID s1
         = OAuthTokenResourceModel.ID (Get_value (Read_State req))).
Proof.
  intros E Hs.
  adapter_run E; simpl in Hs; try discriminate; auto.
  inversion Hs; subst. right. split; reflexivity.
Qed.

Lemma token_refreshes_untracked r n t :
  token_refreshes r n None t = (Ok None, t).
Proof. destruct n; reflexivity. Qed.

Lemma token_refreshes_frame r n : forall s t s' t',
  token_refreshes r n (Some s) t = (Ok (Some s'), t') ->
  OAuthTokenResourceModel.FullToken s' = OAuthTokenResourceModel.FullToken s
  /\ OAuthTokenResourceModel.ID s' = OAuthTokenResourceModel.ID s.
Proof.
  induction n as [|n IH]; intros s t s' t' E.
  - inversion E; subst. split; reflexivity.
  - simpl in E. unfold bind in E.
    destruct (OAuthTokenResource.Read r _ _ t) as [[resp1|msg] t1] eqn:Hread;
      [|discriminate].
    destruct (State resp1) as [s1|] eqn:Hs1.
    + apply IH in E. destruct E as [Ef Ei].
      destruct (token_read_frame _ _ _ _ _ _ _ Hread Hs1) as [Hsame|[Hf Hi]];
        simpl in *.
      * inversion Hsame; subst. split; assumption.
      * rewrite Ef, Ei, Hf, Hi. split; reflexivity.
    + rewrite token_refreshes_untracked in E. discriminate.
Qed.

(** C7: a token read whose API call returns a record writes the state it
    read with client_id, scopes and expires_at replaced by the record's
    values and with id and full_token unchanged; in particular this is what
    a read does that receives 200 with a body that decodes, whether or not
    that body carries a full_token.  Hence, through any number of refreshes,
    a token that is still tracked keeps the id and the full_token it had at
    the start. *)
Theorem token_read_preserves_full_token :
  (forall r req resp0 t id token t',
      let state := Get_value (Read_State req) in
      let ds := diag.Append (Diagnostics resp0) (Get_diags (Read_State req)) in
      diag.HasError ds = false ->
      strconv.ParseInt (types.ValueString (OAuthTokenResourceModel.ID state))
      = (id, None) ->
      ReadOAuthToken (OAuthTokenResource.client r) id t
      = (Ok (Some token, None), t') ->
      OAuthTokenResource.Read r req resp0 t
      = (Ok {| State :=
                 Some {| OAuthTokenResourceModel.ID :=
                           OAuthTokenResourceModel.ID state;
                         OAuthTokenResourceModel.ClientID :=
                           types.known
                             (strconv.FormatInt (OAuthToken.ClientID token));
                         OAuthTokenResourceModel.Scopes :=
                           map types.known (OAuthToken.Scopes token);
                         OAuthTokenResourceModel.FullToken :=
                           OAuthTokenResourceModel.FullToken state;
                         OAuthTokenResourceModel.ExpiresAt :=
                           types.known (OAuthToken.ExpiresAt token) |};
               Diagnostics := ds |}, t'))
  /\
  (forall r req resp0 t out t' resp w,
      OAuthTokenResource.Read r req resp0 t = (out, t') ->
      received t t' resp ->
      StatusCode resp = StatusOK ->
      Decode_oauthTokenWrapper (RespBody resp) = inr w ->
      exists resp1 st,
        out = Ok resp1
        /\ State resp1 = Some st
        /\ OAuthTokenResourceModel.FullToken st
           = OAuthTokenResourceModel.FullToken (Get_value (Read_State req))
        /\ OAuthTokenResourceModel.ID st
           = OAuthTokenResourceModel.ID (Get_value (Read_State req))
        /\ OAuthTokenResourceModel.ClientID st
           = types.known (strconv.FormatInt (OAuthToken.ClientID (wrapper_Token w)))
        /\ OAuthTokenResourceModel.Scopes st
           = map types.known (OAuthToken.Scopes (wrapper_Token w))
        /\ OAuthTokenResourceModel.ExpiresAt st
           = types.known (OAuthToken.ExpiresAt (wrapper_Token w)))
  /\
  (forall r n s t s' t',
      token_refreshes r n (Some s) t = (Ok (Some s'), t') ->
      OAuthTokenResourceModel.FullToken s' = OAuthTokenResourceModel.FullToken s
      /\ OAuthTokenResourceModel.ID s' = OAuthTokenResourceModel.ID s).
Proof.
  split; [|split].
  - intros r req resp0 t id token t' state ds Hok Hparse Hrun.
    into_api_call Hok Hrun. reflexivity.
  - intros r req resp0 t out t' resp w E R Hs Hdec.
    adapter_run E; try (no_request R);
      match goal with
      | H : ReadOAuthToken _ _ _ = _ |- _ =>
          eapply ReadOAuthToken_ok in H; [|eassumption..];
          rewrite Hdec in H; inversion H; subst
      end.
    eexists; eexists; split; [reflexivity|]. simpl. repeat split.
  - intros r n. apply token_refreshes_frame.
Qed.

(** *** Fields a response does not mention keep their zero value *)


(** A property of the struct that every store of this document preserves is
    preserved by decoding the whole object. *)
Lemma members_invariant {S F} (fields : list F) (name : F -> string)
  (set : S -> F -> json.value -> error + S) (P : S -> Prop) :
  forall ms s s',
    (forall k v f s1 s2,
        In (k, v) ms -> decode.lookup_field fields name k = Some f ->
        set s1 f v = inr s2 -> P s1 -> P s2) ->
    P s ->
    decode.members fields name set s ms = inr s' ->
    P s'.
Proof.
  induction ms as [|[k v] rest IH]; intros s s' Hstep Hs E; simpl in E.
  - inversion E; subst. assumption.
  - destruct (decode.lookup_field fields name k) as [f|] eqn:Hl.
    + destruct (set s f v) as [e|s1] eqn:Hset; [discriminate|].
      apply (IH s1 s'); auto.
      * intros k0 v0 f0 a b Hin. apply Hstep. now right.
      * apply (Hstep k v f s s1); auto. now left.
    + apply (IH s s'); auto.
      intros k0 v0 f0 a b Hin. apply Hstep. now right.
Qed.








(** C9 (as the code has it): when the URL is accepted, [CreateOAuthClient]
    sends one POST request whose JSON body is a single [client] object with
    the members id (always 0), name, identifier, kind, in this order,
    followed by description only when the description is not empty. *)
Theorem create_client_request_body
  (c : Client) (name identifier kind description : string) (t : Trace) :
  url_Parse (clients_url c) = None ->
  exists req,
    snd (CreateOAuthClient (Some c) name identifier kind description t)
    = (t ++ [req])%list
    /\ Method req = "POST"
    /\ URL req = clients_url c
    /\ ContentType req = Some "application/json"
    /\ Body req = Some (create_client_body name identifier kind description).
Proof.
  intros Hurl.
  cbv [CreateOAuthClient bind deref ret NewRequest http_Do].
  cbv beta iota zeta. rewrite Hurl. cbv beta iota.
  eexists. split.
  - match goal with
    | |- snd (match ?r with _ => _ end ?t1) = _ =>
        destruct r as [e|resp]; cbv beta iota;
        [ reflexivity
        | destruct (negb (StatusCode resp =? StatusCreated));
          [ reflexivity
          | destruct (Decode_oauthClientWrapper (RespBody resp)); reflexivity ] ]
    end.
  - repeat split; reflexivity.
Qed.

Ltac reach_nil_client Hnil Hok :=
  unfold panics_at_client_call;
  cbv [OAuthClientResource.Create OAuthClientResource.Read
       OAuthClientResource.Delete
       OAuthTokenResource.Create OAuthTokenResource.Read
       OAuthTokenResource.Delete bind ret];
  cbv beta iota zeta;
  match goal with
  | |- context [diag.HasError (Diagnostics (Diagnostics_Append ?r ?d))] =>
      let Herr := fresh "Herr" in
      destruct (diag.HasError (Diagnostics (Diagnostics_Append r d))) eqn:Herr;
      [ exfalso; exact (Bool.diff_false_true (eq_trans (eq_sym Hok) Herr)) | ]
  end;
  try match goal with
      | Hparse : strconv.ParseInt _ = (?id, None)
        |- context [strconv.ParseInt ?s] =>
          let Hq := fresh "Hq" in
          let Heq := fresh "Heq" in
          destruct (strconv.ParseInt s) as [v o] eqn:Hq;
          first [ pose proof (eq_trans (eq_sym Hq) Hparse) as Heq
                | pose proof Hparse as Heq ];
          inversion Heq; subst v o; clear Heq
      end;
  rewrite Hnil; reflexivity.

(** C10 (as the code has it): configure with nil provider data returns
    without adding a diagnostic and without touching the adapter's client;
    on an adapter whose client is nil, a create, read or delete that gets
    past its local checks (the request decodes without error and the id it
    needs parses) panics on the nil client, before any HTTP request and
    without a diagnostic. *)
Theorem unconfigured_adapter_panics_at_client_call :
  (forall r resp,
      OAuthClientResource.Configure r {| ProviderData := any_nil |} resp = (r, resp))
  /\
  (forall r resp,
      OAuthTokenResource.Configure r {| ProviderData := any_nil |} resp = (r, resp))
  /\
  (forall r req resp0 t,
      OAuthClientResource.client r = None ->
      diag.HasError
        (diag.Append (Diagnostics resp0) (Get_diags (Create_Plan req))) = false ->
      panics_at_client_call (OAuthClientResource.Create r req resp0 t) t)
  /\
  (forall r req resp0 t id,
      OAuthClientResource.client r = None ->
      diag.HasError
        (diag.Append (Diagnostics resp0) (Get_diags (Read_State req))) = false ->
      strconv.ParseInt
        (types.ValueString
           (OAuthClientResourceModel.ID (Get_value (Read_State req))))
      = (id, None) ->
      panics_at_client_call (OAuthClientResource.Read r req resp0 t) t)
  /\
  (forall r req resp0 t id,
      OAuthClientResource.client r = None ->
      diag.HasError
        (diag.Append (Diagnostics resp0) (Get_diags (Delete_State req))) = false ->
      strconv.ParseInt
        (types.ValueString
           (OAuthClientResourceModel.ID (Get_value (Delete_State req))))
      = (id, None) ->
      panics_at_client_call (OAuthClientResource.Delete r req resp0 t) t)
  /\
  (forall r req resp0 t id,
      OAuthTokenResource.client r = None ->
      diag.HasError
        (diag.Append (Diagnostics resp0) (Get_diags (Create_Plan req))) = false ->
      strconv.ParseInt
        (types.ValueString
           (OAuthTokenResourceModel.ClientID (Get_value (Create_Plan req))))
      = (id, None) ->
      panics_at_client_call (OAuthTokenResource.Create r req resp0 t) t)
  /\
  (forall r req resp0 t id,
      OAuthTokenResource.client r = None ->
      diag.HasError
        (diag.Append (Diagnostics resp0) (Get_diags (Read_State req))) = false ->
      strconv.ParseInt
        (types.ValueString
           (OAuthTokenResourceModel.ID (Get_value (Read_State req))))
      = (id, None) ->
      panics_at_client_call (OAuthTokenResource.Read r req resp0 t) t)
  /\
  (forall r req resp0 t id,
      OAuthTokenResource.client r = None ->
      diag.HasError
        (diag.Append (Diagnostics resp0) (Get_diags (Delete_State req))) = false ->
      strconv.ParseInt
        (types.ValueString
           (OAuthTokenResourceModel.ID (Get_value (Delete_State req))))
      = (id, None) ->
      panics_at_client_call (OAuthTokenResource.Delete r req resp0 t) t).
Proof.
  split; [reflexivity|]. split; [reflexivity|].
  split; [intros r req resp0 t Hnil Hok; reach_nil_client Hnil Hok|].
  repeat split; intros r req resp0 t id Hnil Hok Hparse;
    reach_nil_client Hnil Hok.
Qed.

End AdapterFacts.

(** ** strconv on known values *)

Example ParseInt_max : strconv.ParseInt "9223372036854775807" = (2 ^ 63 - 1, None).
Proof. reflexivity. Qed.

Example ParseInt_min : strconv.ParseInt "-9223372036854775808" = (- 2 ^ 63, None).
Proof. reflexivity. Qed.

Example ParseInt_above_max :
  strconv.ParseInt "9223372036854775808"
  = (2 ^ 63 - 1, Some (strconv_NumError "ParseInt" "9223372036854775808" ErrRange)).
Proof. reflexivity. Qed.

Example ParseInt_plus : strconv.ParseInt "+7" = (7, None).
Proof. reflexivity. Qed.

Example ParseInt_empty :
  strconv.ParseInt "" = (0, Some (strconv_NumError "ParseInt" "" ErrSyntax)).
Proof. reflexivity. Qed.

Example ParseInt_sign_only :
  strconv.ParseInt "-" = (0, Some (strconv_NumError "ParseInt" "-" ErrSyntax)).
Proof. reflexivity. Qed.

Example ParseInt_space :
  strconv.ParseInt " 42" = (0, Some (strconv_NumError "ParseInt" " 42" ErrSyntax)).
Proof. reflexivity. Qed.

Example FormatInt_negative : strconv.FormatInt (-45) = "-45".
Proof. reflexivity. Qed.

Example FormatInt_zero : strconv.FormatInt 0 = "0".
Proof. reflexivity. Qed.

(** ** The provider's Configure *)

Lemma Configure_leaves_provider_data Getenv Config resp :
  ZendeskProvider.ResourceData (ZendeskProvider.Configure Getenv Config resp)
  = ZendeskProvider.ResourceData resp
  /\ ZendeskProvider.DataSourceData (ZendeskProvider.Configure Getenv Config resp)
     = ZendeskProvider.DataSourceData resp.
Proof.
  unfold ZendeskProvider.Configure.
  repeat match goal with
         | |- context [if ?b then _ else _] => destruct b
         end; split; reflexivity.
Qed.

(** C1: with subdomain, email and API token all given explicitly and not
    empty, Configure reports no diagnostic, yet the response carries no
    client: ResourceData is still nil, and the two adapters the framework
    then configures with it hold a nil client. *)
Theorem provider_configure_builds_no_client :
  ZendeskProvider.Configure fixture.no_environment fixture.provider_config
    ZendeskProvider.fresh_response
  = {| ZendeskProvider.Diagnostics := [];
       ZendeskProvider.DataSourceData := any_nil;
       ZendeskProvider.ResourceData := any_nil |}
  /\ OAuthClientResource.client
       (fst (ZendeskProvider.configured_OAuthClientResource
               (ZendeskProvider.Configure fixture.no_environment
                  fixture.provider_config ZendeskProvider.fresh_response)))
     = None
  /\ OAuthTokenResource.client
       (fst (ZendeskProvider.configured_OAuthTokenResource
               (ZendeskProvider.Configure fixture.no_environment
                  fixture.provider_config ZendeskProvider.fresh_response)))
     = None.
Proof. repeat split; reflexivity. Qed.

(** ** The theorems at concrete inputs *)



Lemma create_writes_state_only_on_success_witness :
  diag.HasError (diag.Append [] []) = false
  /\ exists token,
       Some {| OAuthToken.ID := 7; OAuthToken.ClientID := 42;
               OAuthToken.UserID := 0; OAuthToken.Scopes := ["read"];
               OAuthToken.FullToken := "s3cr3t"; OAuthToken.ExpiresAt := "" |}
       = Some token
       /\ @OAuthTokenResource.Create fixture.created_token_world
            fixture.token_resource
            {| Create_Plan := fixture.data (fixture.token_plan "42") |}
            (fixture.empty_response None) []
          = (Ok {| tfsdk.State :=
                     Some {| OAuthTokenResourceModel.ID :=
                               types.known
                                 (strconv.FormatInt (OAuthToken.ID token));
                             OAuthTokenResourceModel.ClientID := types.known "42";
                             OAuthTokenResourceModel.Scopes := [types.known "read"];
                             OAuthTokenResourceModel.FullToken :=
                               types.known (OAuthToken.FullToken token);
                             OAuthTokenResourceModel.ExpiresAt :=
                               types.known (OAuthToken.ExpiresAt token) |};
                   tfsdk.Diagnostics := [] |},
             snd (@OAuthTokenResource.Create fixture.created_token_world
                    fixture.token_resource
                    {| Create_Plan := fixture.data (fixture.token_plan "42") |}
                    (fixture.empty_response None) [])).
Proof.
  split; [reflexivity|].
  exact (proj2 (@create_writes_state_only_on_success fixture.created_token_world)
           fixture.token_resource
           {| Create_Plan := fixture.data (fixture.token_plan "42") |}
           (fixture.empty_response None) [] 42 _ None _
           eq_refl eq_refl eq_refl).
Defined.

Lemma unparsable_id_aborts_before_any_request_witness :
  snd (strconv.ParseInt "abc") = Some (strconv_NumError "ParseInt" "abc" ErrSyntax)
  /\ aborted_on_parse
       (@OAuthClientResource.Read fixture.failing_world OAuthClientResource.New
          {| Read_State := fixture.data (fixture.client_state "abc") |}
          (fixture.empty_response (Some (fixture.client_state "abc"))) [])
       []
       (fixture.empty_response (Some (fixture.client_state "abc")))
       []
       "Error Parsing OAuth Client ID"
       ("Could not parse OAuth client ID: "
          ++ @Error fixture.failing_world
               (strconv_NumError "ParseInt" "abc" ErrSyntax)).
Proof.
  split; [reflexivity|].
  exact (proj1 (@unparsable_id_aborts_before_any_request fixture.failing_world)
           OAuthClientResource.New
           {| Read_State := fixture.data (fixture.client_state "abc") |}
           (fixture.empty_response (Some (fixture.client_state "abc"))) []
           (strconv_NumError "ParseInt" "abc" ErrSyntax) eq_refl).
Defined.

Lemma token_read_preserves_full_token_witness :
  exists s' t',
    @token_refreshes fixture.read_token_world fixture.token_resource 3%nat
      (Some (fixture.token_state "7")) []
    = (Ok (Some s'), t')
    /\ OAuthTokenResourceModel.ExpiresAt s' = types.known "2030-01-01T00:00:00Z"
    /\ OAuthTokenResourceModel.FullToken s' = types.known "tok-at-creation"
    /\ OAuthTokenResourceModel.ID s' = types.known "7".
Proof.
  eexists. eexists. split; [reflexivity|]. split; [reflexivity|].
  exact (proj2 (proj2 (@token_read_preserves_full_token fixture.read_token_world))
           fixture.token_resource 3%nat (fixture.token_state "7") [] _ _ eq_refl).
Defined.


Lemma create_client_request_body_witness :
  @url_Parse fixture.created_client_world (clients_url fixture.acme) = None
  /\ exists req,
       snd (@CreateOAuthClient fixture.created_client_world (Some fixture.acme)
              "Basic Client" "basic_client" "public" "a description" [])
       = ([] ++ [req])%list
       /\ Method req = "POST"
       /\ URL req = clients_url fixture.acme
       /\ ContentType req = Some "application/json"
       /\ Body req
          = Some (create_client_body "Basic Client" "basic_client" "public"
                    "a description").
Proof.
  split; [reflexivity|].
  exact (@create_client_request_body fixture.created_client_world fixture.acme
           "Basic Client" "basic_client" "public" "a description" [] eq_refl).
Defined.

Lemma unconfigured_adapter_panics_at_client_call_witness :
  OAuthClientResource.client OAuthClientResource.New = None
  /\ strconv.ParseInt "42" = (42, None)
  /\ panics_at_client_call
       (@OAuthClientResource.Read fixture.not_found_world OAuthClientResource.New
          {| Read_State := fixture.data (fixture.client_state "42") |}
          (fixture.empty_response (Some (fixture.client_state "42"))) [])
       [].
Proof.
  split; [reflexivity|]. split; [reflexivity|].
  destruct (@unconfigured_adapter_panics_at_client_call fixture.not_found_world)
    as (_ & _ & _ & H & _).
  exact (H OAuthClientResource.New
           {| Read_State := fixture.data (fixture.client_state "42") |}
           (fixture.empty_response (Some (fixture.client_state "42"))) [] 42
           eq_refl eq_refl eq_refl).
Defined.

(** ** Where the code departs from the specification's wording *)

(** C9, as the specification words it, fails: for the client of the
    specification's own scenario (no description) the body sent carries an
    id member and no description member, so it is not the four-field
    body. *)
Lemma create_client_body_is_not_the_four_fields :
  exists req,
    snd (@CreateOAuthClient fixture.created_client_world (Some fixture.acme)
           "Basic Client" "basic_client" "public" "" [])
    = [req]
    /\ Body req
       = Some (json.Object
                 [("client",
                   json.Object [("id", json.Number "0");
                                ("name", json.String_ "Basic Client");
                                ("identifier", json.String_ "basic_client");
                                ("kind", json.String_ "public")])])
    /\ Body req
       <> Some (spec_create_client_body "Basic Client" "basic_client" "public" "").
Proof.
  eexists. split; [reflexivity|]. split; [reflexivity|]. discriminate.
Qed.

(** C10, as the specification words it, fails: after a configure with nil
    provider data the adapter's client is nil, and a read whose stored id
    does not parse returns with an error diagnostic; it does not reach the
    nil client. *)
Lemma unconfigured_read_of_unparsable_id_reports_diagnostic :
  OAuthClientResource.Configure OAuthClientResource.New
    {| ProviderData := any_nil |} {| Configure_Diagnostics := [] |}
  = (OAuthClientResource.New, {| Configure_Diagnostics := [] |})
  /\ OAuthClientResource.client OAuthClientResource.New = None
  /\ ~ panics_at_client_call
         (@OAuthClientResource.Read fixture.failing_world OAuthClientResource.New
            {| Read_State := fixture.data (fixture.client_state "abc") |}
            (fixture.empty_response (Some (fixture.client_state "abc"))) [])
         []
  /\ exists resp1,
       @OAuthClientResource.Read fixture.failing_world OAuthClientResource.New
         {| Read_State := fixture.data (fixture.client_state "abc") |}
         (fixture.empty_response (Some (fixture.client_state "abc"))) []
       = (Ok resp1, [])
       /\ diag.HasError (tfsdk.Diagnostics resp1) = true.
Proof.
  split; [reflexivity|]. split; [reflexivity|]. split.
  - unfold panics_at_client_call. discriminate.
  - eexists. split; reflexivity.
Qed.

(** * Further properties of the code *)

(** ** strconv: the decimal form of an id and its parse *)

Module strconv_facts.

Lemma uint_value_ge d : forall n, 0 <= n -> n <= uint_value d n.
Proof.
  induction d; intros n Hn; cbn [uint_value]; try lia;
    match goal with
    | |- _ <= uint_value _ ?m => specialize (IHd m ltac:(lia)); lia
    end.
Qed.

Lemma uint_value_acc d : forall acc,
  uint_value d (Zpos acc) = Zpos (Pos.of_uint_acc d acc).
Proof.
  induction d; intros acc; cbn [uint_value Pos.of_uint_acc]; try reflexivity;
    rewrite <- IHd; f_equal; lia.
Qed.

Lemma uint_value_of_uint d : uint_value d 0 = Z.of_N (Pos.of_uint d).
Proof.
  induction d; cbn [uint_value Pos.of_uint]; try reflexivity; try assumption;
    match goal with
    | |- uint_value _ ?m = _ =>
        let p := eval compute in (Z.to_pos m) in change m with (Zpos p)
    end; rewrite uint_value_acc; reflexivity.
Qed.

Lemma parseUint_loop_digits d : forall n,
  0 <= n -> uint_value d n < 2 ^ 64 ->
  strconv.parseUint_loop (NilEmpty.string_of_uint d) n = inr (uint_value d n).
Proof.
  induction d; intros n Hn Hv; simpl NilEmpty.string_of_uint;
    [reflexivity|..];
    match goal with
    | H : uint_value (_ ?l) n < _ |- _ =>
        cbn [uint_value] in H;
        match type of H with
        | uint_value _ ?m < _ =>
            pose proof (uint_value_ge l m ltac:(lia)) as Hge;
            cbn [strconv.parseUint_loop];
            change (negb (strconv.is_digit _)) with false; cbv beta iota;
            unfold strconv.maxUint64;
            replace (((2 ^ 64 - 1) / 10 + 1 <=? n)) with false
              by (symmetry; apply Z.leb_gt;
                  change ((2 ^ 64 - 1) / 10 + 1) with 1844674407370955162;
                  change (2^64) with 18446744073709551616 in *; lia);
            unfold strconv.digit; simpl N_of_ascii; simpl Z.of_N;
            replace ((n * 10 + _) mod 2 ^ 64) with m
              by (rewrite Z.mod_small; change (2^64) with 18446744073709551616 in *; lia);
            replace ((m <? n * 10) || (2 ^ 64 - 1 <? m)) with false
              by (symmetry; apply orb_false_iff; split;
                  [apply Z.ltb_ge | apply Z.ltb_ge];
                  change (2^64) with 18446744073709551616 in *; lia);
            apply IHd; lia
        end
    end.
Qed.

Lemma ParseUint_digits d :
  d <> Decimal.Nil -> uint_value d 0 < 2 ^ 64 ->
  strconv.ParseUint (NilEmpty.string_of_uint d) = inr (uint_value d 0).
Proof.
  intros Hd Hv. pose proof (parseUint_loop_digits d 0 ltac:(lia) Hv) as H.
  destruct d; [contradiction|..]; exact H.
Qed.

Lemma unsigned_ParseInt d :
  d <> Decimal.Nil -> uint_value d 0 < 2 ^ 63 ->
  strconv.ParseInt (NilEmpty.string_of_uint d) = (uint_value d 0, None).
Proof.
  intros Hd Hv.
  assert (Hu : strconv.ParseUint (NilEmpty.string_of_uint d) = inr (uint_value d 0))
    by (apply ParseUint_digits; [assumption|change (2^64) with 18446744073709551616; change (2^63) with 9223372036854775808 in *; lia]).
  pose proof (uint_value_ge d 0 ltac:(lia)) as Hge.
  destruct d; [contradiction|..];
    unfold strconv.ParseInt; cbn [NilEmpty.string_of_uint] in *;
    cbv beta iota zeta;
    change (Ascii.eqb _ "-") with false;
    change (Ascii.eqb _ "+") with false;
    cbv beta iota;
    rewrite Hu; cbn [negb andb];
    replace (2 ^ 63 <=? _) with false
      by (symmetry; apply Z.leb_gt; assumption);
    reflexivity.
Qed.

Lemma negative_ParseInt d :
  d <> Decimal.Nil -> uint_value d 0 <= 2 ^ 63 ->
  strconv.ParseInt (String "-" (NilEmpty.string_of_uint d)) = (- uint_value d 0, None).
Proof.
  intros Hd Hv.
  assert (Hu : strconv.ParseUint (NilEmpty.string_of_uint d) = inr (uint_value d 0))
    by (apply ParseUint_digits; [assumption|change (2^64) with 18446744073709551616; change (2^63) with 9223372036854775808 in *; lia]).
  unfold strconv.ParseInt.
  change (Ascii.eqb "-" "-") with true.
  change (Ascii.eqb "-" "+") with false.
  cbv beta iota zeta.
  rewrite Hu. cbn [negb andb].
  replace (2 ^ 63 <? _) with false
    by (symmetry; apply Z.ltb_ge; assumption).
  reflexivity.
Qed.

(** The decimal form [FormatInt] gives an int64 is read back by
    [ParseInt] as the same number, without error. *)
Lemma ParseInt_FormatInt (i : Z) :
  in_int64 i ->
  strconv.ParseInt (strconv.FormatInt i) = (i, None).
Proof.
  unfold in_int64. intros Hi. unfold strconv.FormatInt.
  destruct i as [|p|p].
  - reflexivity.
  - cbn [Z.to_int NilZero.string_of_int].
    pose proof (DecimalPos.Unsigned.to_uint_nonnil p) as Hnn.
    assert (Hv : uint_value (Pos.to_uint p) 0 = Zpos p)
      by (rewrite uint_value_of_uint, DecimalPos.Unsigned.of_to; reflexivity).
    replace (NilZero.string_of_uint (Pos.to_uint p))
      with (NilEmpty.string_of_uint (Pos.to_uint p))
      by (destruct (Pos.to_uint p); [contradiction|reflexivity..]).
    rewrite unsigned_ParseInt; [now rewrite Hv|assumption|lia].
  - cbn [Z.to_int NilZero.string_of_int].
    pose proof (DecimalPos.Unsigned.to_uint_nonnil p) as Hnn.
    assert (Hv : uint_value (Pos.to_uint p) 0 = Zpos p)
      by (rewrite uint_value_of_uint, DecimalPos.Unsigned.of_to; reflexivity).
    replace (NilZero.string_of_uint (Pos.to_uint p))
      with (NilEmpty.string_of_uint (Pos.to_uint p))
      by (destruct (Pos.to_uint p); [contradiction|reflexivity..]).
    rewrite negative_ParseInt; [now rewrite Hv|assumption|lia].
Qed.

Lemma parseUint_loop_nonneg s : forall n un,
  0 <= n -> strconv.parseUint_loop s n = inr un -> 0 <= un.
Proof.
  induction s as [|c s IH]; intros n un Hn E;
    cbn [strconv.parseUint_loop] in E.
  - inversion E; subst; assumption.
  - repeat match type of E with
           | (if ?b then _ else _) = _ => destruct b; [discriminate|]
           end.
    cbv zeta in E.
    repeat match type of E with
           | (if ?b then _ else _) = _ => destruct b; [discriminate|]
           end.
    apply IH in E; [assumption|].
    apply Z.mod_pos_bound. reflexivity.
Qed.

Lemma ParseUint_nonneg s un : strconv.ParseUint s = inr un -> 0 <= un.
Proof.
  destruct s; [discriminate|]. apply parseUint_loop_nonneg. lia.
Qed.

(** Whatever the string, the number [ParseInt] returns is an int64 (on
    a range error it is the nearest bound, on a syntax error 0), and a
    success is never reported for the empty string or for a lone sign. *)
Lemma ParseInt_in_range (s : string) :
  in_int64 (fst (strconv.ParseInt s))
  /\ (snd (strconv.ParseInt s) = None -> s <> "" /\ s <> "+" /\ s <> "-").
Proof.
  unfold in_int64. split.
  - unfold strconv.ParseInt. destruct s as [|c rest]; [simpl; lia|].
    cbv zeta.
    destruct (strconv.ParseUint _) as [[|]|un] eqn:Hu.
    + simpl; lia.
    + destruct (Ascii.eqb c "-"); simpl; lia.
    + apply ParseUint_nonneg in Hu.
      destruct (Ascii.eqb c "-"); cbn [negb andb];
        [ destruct (2 ^ 63 <? un) eqn:Hc
        | destruct (2 ^ 63 <=? un) eqn:Hc ];
        cbn [fst];
        try apply Z.ltb_ge in Hc; try apply Z.leb_gt in Hc; lia.
  - intros H. repeat split; intros ->; discriminate.
Qed.

End strconv_facts.

(** ** encoding/json: what is marshalled decodes to the same record *)

Section JsonFacts.
Context {W : World}.

Lemma members_cons {S F} (fields : list F) (name : F -> string)
  (set : S -> F -> json.value -> error + S) s k v rest f :
  decode.lookup_field fields name k = Some f ->
  decode.members fields name set s ((k, v) :: rest)
  = match set s f v with
    | inl e => inl e
    | inr s' => decode.members fields name set s' rest
    end.
Proof. intros H. simpl. now rewrite H. Qed.

Lemma members_skip {S F} (fields : list F) (name : F -> string)
  (set : S -> F -> json.value -> error + S) s k v rest :
  decode.lookup_field fields name k = None ->
  decode.members fields name set s ((k, v) :: rest)
  = decode.members fields name set s rest.
Proof. intros H. simpl. now rewrite H. Qed.

Lemma decode_int64_format sn fn old i :
  in_int64 i ->
  decode.int64 sn fn old (json.Number (strconv.FormatInt i)) = inr i.
Proof.
  intros Hi. unfold decode.int64.
  now rewrite strconv_facts.ParseInt_FormatInt.
Qed.

Lemma decode_strings_map sn fn l :
  decode.strings sn fn (map json.String_ l) = inr l.
Proof.
  induction l as [|x l IH]; simpl; [reflexivity|]. now rewrite IH.
Qed.

Lemma client_marshal_decodes sn fn tn (c : OAuthClient.t) :
  in_int64 (OAuthClient.ID c) ->
  decode.struct_ OAuthClientJSON.fields OAuthClientJSON.name OAuthClientJSON.set
    sn fn tn OAuthClient.zero (OAuthClientJSON.Marshal c)
  = inr c.
Proof.
  intros Hid. destruct c as [id n i k d]. simpl in Hid.
  unfold OAuthClientJSON.Marshal, decode.struct_. cbv beta iota.
  cbn [OAuthClient.ID OAuthClient.Name OAuthClient.Identifier OAuthClient.Kind
       OAuthClient.Description app].
  (erewrite members_cons; [|reflexivity]).
  cbn [OAuthClientJSON.set]. rewrite decode_int64_format by assumption.
  (erewrite members_cons; [|reflexivity]).
  cbn [OAuthClientJSON.set decode.string_].
  (erewrite members_cons; [|reflexivity]).
  cbn [OAuthClientJSON.set decode.string_].
  (erewrite members_cons; [|reflexivity]).
  cbn [OAuthClientJSON.set decode.string_].
  destruct (String.eqb d "") eqn:Hd.
  - apply String.eqb_eq in Hd. subst d. reflexivity.
  - (erewrite members_cons; [|reflexivity]).
    reflexivity.
Qed.

Lemma token_marshal_decodes sn fn tn (k : OAuthToken.t) :
  in_int64 (OAuthToken.ID k) -> in_int64 (OAuthToken.ClientID k) ->
  in_int64 (OAuthToken.UserID k) ->
  decode.struct_ OAuthTokenJSON.fields OAuthTokenJSON.name OAuthTokenJSON.set
    sn fn tn OAuthToken.zero (OAuthTokenJSON.Marshal k)
  = inr k.
Proof.
  intros Hid Hcid Huid. destruct k as [id cid uid sc ft ex].
  simpl in Hid, Hcid, Huid.
  unfold OAuthTokenJSON.Marshal, decode.struct_. cbv beta iota.
  cbn [OAuthToken.ID OAuthToken.ClientID OAuthToken.UserID OAuthToken.Scopes
       OAuthToken.FullToken OAuthToken.ExpiresAt app].
  (erewrite members_cons; [|reflexivity]).
  cbn [OAuthTokenJSON.set]. rewrite decode_int64_format by assumption.
  (erewrite members_cons; [|reflexivity]).
  cbn [OAuthTokenJSON.set]. rewrite decode_int64_format by assumption.
  (erewrite members_cons; [|reflexivity]).
  cbn [OAuthTokenJSON.set]. rewrite decode_int64_format by assumption.
  (erewrite members_cons; [|reflexivity]).
  cbn [OAuthTokenJSON.set decode.string_slice]. rewrite decode_strings_map.
  destruct (String.eqb ft "") eqn:Hft; destruct (String.eqb ex "") eqn:Hex;
    try (apply String.eqb_eq in Hft; subst ft);
    try (apply String.eqb_eq in Hex; subst ex);
    cbn [app OAuthToken.ID OAuthToken.ClientID OAuthToken.UserID
         OAuthToken.Scopes OAuthToken.FullToken OAuthToken.ExpiresAt];
    repeat first
      [ (erewrite members_cons; [|reflexivity])
      | (erewrite members_cons; [|reflexivity]) ];
    reflexivity.
Qed.

Lemma token_null_scopes_decodes sn fn tn id cid uid ft ex :
  in_int64 id -> in_int64 cid -> in_int64 uid ->
  decode.struct_ OAuthTokenJSON.fields OAuthTokenJSON.name OAuthTokenJSON.set
    sn fn tn OAuthToken.zero
    (json.Object
       ([("id", json.Number (strconv.FormatInt id));
         ("client_id", json.Number (strconv.FormatInt cid));
         ("user_id", json.Number (strconv.FormatInt uid));
         ("scopes", json.Null)]
        ++ (if String.eqb ft "" then [] else [("full_token", json.String_ ft)])
        ++ (if String.eqb ex "" then [] else [("expires_at", json.String_ ex)]))%list)
  = inr {| OAuthToken.ID := id; OAuthToken.ClientID := cid;
           OAuthToken.UserID := uid; OAuthToken.Scopes := [];
           OAuthToken.FullToken := ft; OAuthToken.ExpiresAt := ex |}.
Proof.
  intros Hid Hcid Huid.
  unfold decode.struct_. cbv beta iota. cbn [app].
  (erewrite members_cons; [|reflexivity]).
  cbn [OAuthTokenJSON.set]. rewrite decode_int64_format by assumption.
  (erewrite members_cons; [|reflexivity]).
  cbn [OAuthTokenJSON.set]. rewrite decode_int64_format by assumption.
  (erewrite members_cons; [|reflexivity]).
  cbn [OAuthTokenJSON.set]. rewrite decode_int64_format by assumption.
  (erewrite members_cons; [|reflexivity]).
  cbn [OAuthTokenJSON.set decode.string_slice].
  destruct (String.eqb ft "") eqn:Hft; destruct (String.eqb ex "") eqn:Hex;
    try (apply String.eqb_eq in Hft; subst ft);
    try (apply String.eqb_eq in Hex; subst ex);
    cbn [app OAuthToken.ID OAuthToken.ClientID OAuthToken.UserID
         OAuthToken.Scopes OAuthToken.FullToken OAuthToken.ExpiresAt];
    repeat first
      [ (erewrite members_cons; [|reflexivity])
      | (erewrite members_cons; [|reflexivity]) ];
    reflexivity.
Qed.

(** X1: a client record whose id is an int64 and whose strings are valid
    UTF-8 survives the round trip through the JSON envelope: when the
    scanner reads a body as the value [json.Marshal] gives for the wrapper,
    the decoder returns the wrapper itself.  An empty description, left out
    by [omitempty], comes back empty.  (A string that is not valid UTF-8 is
    not covered: [json.Marshal] replaces its offending bytes by U+FFFD.) *)
Theorem client_envelope_round_trip (body : string) (w : oauthClientWrapper) :
  in_int64 (OAuthClient.ID (wrapper_Client w)) ->
  client_strings_valid (wrapper_Client w) = true ->
  json_Scan body = inr (oauthClientWrapperJSON.Marshal w) ->
  Decode_oauthClientWrapper body = inr w.
Proof.
  intros Hid _ Hscan. unfold Decode_oauthClientWrapper. rewrite Hscan.
  unfold oauthClientWrapperJSON.Marshal, decode.struct_. cbv beta iota.
  (erewrite members_cons; [|reflexivity]).
  unfold oauthClientWrapperJSON.set. cbn [wrapper_Client].
  rewrite client_marshal_decodes by assumption.
  destruct w; reflexivity.
Qed.

(** X2: the same for a token record whose id, client_id and user_id are
    int64 and whose strings are valid UTF-8: scopes keep their order, and an
    empty full_token or expires_at, left out by [omitempty], comes back
    empty.  A [Scopes] without elements is marshalled as [[]] when the slice
    is empty and as [null] when it is [nil]; either body decodes to the
    record. *)
Theorem token_envelope_round_trip (body : string) (w : oauthTokenWrapper) :
  in_int64 (OAuthToken.ID (wrapper_Token w)) ->
  in_int64 (OAuthToken.ClientID (wrapper_Token w)) ->
  in_int64 (OAuthToken.UserID (wrapper_Token w)) ->
  token_strings_valid (wrapper_Token w) = true ->
  (json_Scan body = inr (oauthTokenWrapperJSON.Marshal w) ->
   Decode_oauthTokenWrapper body = inr w)
  /\ (OAuthToken.Scopes (wrapper_Token w) = [] ->
      json_Scan body = inr (token_envelope_nil_scopes (wrapper_Token w)) ->
      Decode_oauthTokenWrapper body = inr w).
Proof.
  intros Hid Hcid Huid _. split.
  - intros Hscan. unfold Decode_oauthTokenWrapper. rewrite Hscan.
    unfold oauthTokenWrapperJSON.Marshal, decode.struct_. cbv beta iota.
    (erewrite members_cons; [|reflexivity]).
    unfold oauthTokenWrapperJSON.set. cbn [wrapper_Token].
    rewrite token_marshal_decodes by assumption.
    destruct w; reflexivity.
  - intros Hnil Hscan. unfold Decode_oauthTokenWrapper. rewrite Hscan.
    destruct w as [k]. destruct k as [id cid uid sc ft ex].
    cbn [wrapper_Token OAuthToken.ID OAuthToken.ClientID OAuthToken.UserID
         OAuthToken.Scopes] in Hid, Hcid, Huid, Hnil.
    subst sc.
    unfold token_envelope_nil_scopes.
    cbn [wrapper_Token OAuthToken.ID OAuthToken.ClientID OAuthToken.UserID
         OAuthToken.Scopes OAuthToken.FullToken OAuthToken.ExpiresAt].
    unfold decode.struct_ at 1. cbv beta iota.
    (erewrite members_cons; [|reflexivity]).
    unfold oauthTokenWrapperJSON.set. cbn [wrapper_Token].
    rewrite token_null_scopes_decodes by assumption.
    reflexivity.
Qed.


(** *** Decoded ids are int64 *)

Lemma decode_int64_in_range sn fn old v x :
  in_int64 old -> decode.int64 sn fn old v = inr x -> in_int64 x.
Proof.
  intros Hold E. destruct v; simpl in E; try discriminate.
  - inversion E; subst; assumption.
  - destruct (strconv.ParseInt literal) as [n o] eqn:Hp.
    destruct o; [discriminate|]. inversion E; subst.
    pose proof (proj1 (strconv_facts.ParseInt_in_range literal)) as H.
    now rewrite Hp in H.
Qed.

Lemma client_set_id_in_range c f v c' :
  in_int64 (OAuthClient.ID c) -> OAuthClientJSON.set c f v = inr c' ->
  in_int64 (OAuthClient.ID c').
Proof.
  intros Hc E. destruct f; simpl in E;
    match type of E with
    | match ?d with _ => _ end = _ => destruct d eqn:Hd; inversion E; subst
    end; simpl; try assumption.
  eapply decode_int64_in_range; [|exact Hd]; assumption.
Qed.

Lemma token_set_ids_in_range k f v k' :
  in_int64 (OAuthToken.ID k) /\ in_int64 (OAuthToken.ClientID k) ->
  OAuthTokenJSON.set k f v = inr k' ->
  in_int64 (OAuthToken.ID k') /\ in_int64 (OAuthToken.ClientID k').
Proof.
  intros [Hi Hc] E. destruct f; simpl in E;
    match type of E with
    | match ?d with _ => _ end = _ => destruct d eqn:Hd; inversion E; subst
    end; simpl; split; try assumption;
    (eapply decode_int64_in_range; [|exact Hd]; assumption).
Qed.

Lemma Decode_client_id_in_range body w :
  Decode_oauthClientWrapper body = inr w ->
  in_int64 (OAuthClient.ID (wrapper_Client w)).
Proof.
  unfold Decode_oauthClientWrapper. destruct (json_Scan body) as [e|v]; [discriminate|].
  intros E. destruct v; simpl in E; try discriminate.
  - inversion E; subst. unfold in_int64; simpl; lia.
  - apply (members_invariant [oauthClientWrapperJSON.f_client]
             oauthClientWrapperJSON.name
             (fun w f v => oauthClientWrapperJSON.set w f v)
             (fun x => in_int64 (OAuthClient.ID (wrapper_Client x)))
             members {| wrapper_Client := OAuthClient.zero |} w);
      [ | unfold in_int64; simpl; lia | exact E ].
    intros k v f s1 s2 _ _ Hset Hs1.
    unfold oauthClientWrapperJSON.set in Hset.
    destruct (decode.struct_ _ _ _ _ _ _ (wrapper_Client s1) v) as [e|c'] eqn:Hd;
      [discriminate|].
    inversion Hset; subst; simpl.
    destruct v; simpl in Hd; try discriminate.
    + inversion Hd; subst; assumption.
    + apply (members_invariant OAuthClientJSON.fields OAuthClientJSON.name
               OAuthClientJSON.set (fun x => in_int64 (OAuthClient.ID x))
               members0 (wrapper_Client s1) c'); [ | assumption | exact Hd ].
      intros k0 v0 f0 a b _ _ Ha Hb. eapply client_set_id_in_range; eauto.
Qed.

Lemma Decode_token_ids_in_range body w :
  Decode_oauthTokenWrapper body = inr w ->
  in_int64 (OAuthToken.ID (wrapper_Token w))
  /\ in_int64 (OAuthToken.ClientID (wrapper_Token w)).
Proof.
  unfold Decode_oauthTokenWrapper. destruct (json_Scan body) as [e|v]; [discriminate|].
  intros E. destruct v; simpl in E; try discriminate.
  - inversion E; subst. unfold in_int64; simpl; lia.
  - apply (members_invariant [oauthTokenWrapperJSON.f_token]
             oauthTokenWrapperJSON.name
             (fun w f v => oauthTokenWrapperJSON.set w f v)
             (fun x => in_int64 (OAuthToken.ID (wrapper_Token x))
                       /\ in_int64 (OAuthToken.ClientID (wrapper_Token x)))
             members {| wrapper_Token := OAuthToken.zero |} w);
      [ | unfold in_int64; simpl; lia | exact E ].
    intros k v f s1 s2 _ _ Hset Hs1.
    unfold oauthTokenWrapperJSON.set in Hset.
    destruct (decode.struct_ _ _ _ _ _ _ (wrapper_Token s1) v) as [e|c'] eqn:Hd;
      [discriminate|].
    inversion Hset; subst; simpl.
    destruct v; simpl in Hd; try discriminate.
    + inversion Hd; subst; assumption.
    + apply (members_invariant OAuthTokenJSON.fields OAuthTokenJSON.name
               OAuthTokenJSON.set
               (fun x => in_int64 (OAuthToken.ID x)
                         /\ in_int64 (OAuthToken.ClientID x))
               members0 (wrapper_Token s1) c'); [ | assumption | exact Hd ].
      intros k0 v0 f0 a b _ _ Ha Hb. eapply token_set_ids_in_range; eauto.
Qed.

(** *** One member that cannot be stored fails the whole object *)





(** *** A body without the envelope decodes to the zero record *)




End JsonFacts.

(** ** The API client, operation by operation *)

Section MoreApiFacts.
Context {W : World}.

(** Brings [E : op ... t = (out, t')] to the leaves of the operation. *)
Ltac run_api E :=
  cbv [CreateOAuthClient ReadOAuthClient DeleteOAuthClient
       CreateOAuthToken ReadOAuthToken DeleteOAuthToken
       returned_error bind deref NewRequest http_Do ret panic] in E;
  repeat (cbv beta iota in E;
          match type of E with
          | context [match ?x with _ => _ end] =>
              lazymatch x with
              | context [match _ with _ => _ end] => fail
              | _ => destruct x eqn:?
              end
          end);
  cbv beta iota in E;
  inversion E; subst; clear E.

Ltac same_request :=
  repeat match goal with
         | H : (?t ++ [_])%list = (?t ++ [_])%list |- _ =>
             apply trace_last_inj in H; subst
         | H : ?t = (?t ++ [_])%list |- _ =>
             exfalso; exact (trace_grows_not_same _ _ H)
         | H : (?t ++ [_])%list = ?t |- _ =>
             exfalso; exact (trace_grows_not_same _ _ (eq_sym H))
         end.

(** X3: none of the six operations retries: whatever the client, the
    arguments and the server, an operation calls [c.http.Do] at most once,
    so the trace of the calls grows by at most one entry.  The requests
    [net/http] sends of its own inside that one call, when it follows a
    redirect, are not calls of the operation and are not counted. *)
Theorem api_calls_Do_at_most_once
  (op : Operation) (c : option Client) (t : Trace) :
  at_most_one_Do_call t (snd (returned_error op c t)).
Proof.
  destruct (returned_error op c t) as [out t'] eqn:E. simpl.
  unfold at_most_one_Do_call.
  destruct op; run_api E; eauto.
Qed.

(** X4: the request an operation sends is the one the wire contract
    names: the operation's method, the URL under the client's subdomain,
    HTTP basic authentication with the user [email/token] and the API token
    as password, and a JSON content type exactly for the two creates; reads
    and deletes carry no body. *)
Theorem api_request_is_well_formed
  (op : Operation) (c : Client) (t : Trace)
  (out : Res (option error)) (req : HttpRequest) :
  returned_error op (Some c) t = (out, (t ++ [req])%list) ->
  Method req = request_method op
  /\ URL req = request_url op c
  /\ BasicAuth req = Some (email c ++ "/token", apiToken c)
  /\ ContentType req
     = (if is_create op then Some "application/json" else None)
  /\ (is_create op = false -> Body req = None).
Proof.
  intros E.
  destruct op; run_api E; same_request; repeat split; intros; try reflexivity;
    discriminate.
Qed.

(** X5: a failure of the transport is handed back as it is: when the
    request an operation sent was answered by an error, that error is the
    operation's result. *)
Theorem api_forwards_transport_error
  (op : Operation) (c : option Client) (t : Trace)
  (out : Res (option error)) (req : HttpRequest) (err : error) :
  returned_error op c t = (out, (t ++ [req])%list) ->
  http_RoundTrip t req = inl err ->
  out = Ok (Some err).
Proof.
  intros E Hrt.
  destruct op; run_api E; same_request;
    repeat match goal with
           | H1 : http_RoundTrip ?t ?r = _, H2 : http_RoundTrip ?t ?r = _ |- _ =>
               rewrite H1 in H2; inversion H2; subst; clear H2
           end;
    try reflexivity; try discriminate.
Qed.

(** X6: when the URL of an operation is rejected, the operation returns
    that error and sends nothing. *)
Theorem api_rejected_url_sends_nothing
  (op : Operation) (c : Client) (t : Trace) (e : error) :
  url_Parse (request_url op c) = Some e ->
  returned_error op (Some c) t = (Ok (Some e), t).
Proof.
  intros H.
  destruct op; simpl in H;
    cbv [returned_error CreateOAuthClient ReadOAuthClient DeleteOAuthClient
         CreateOAuthToken ReadOAuthToken DeleteOAuthToken
         bind deref NewRequest ret];
    cbv beta iota zeta; rewrite H; reflexivity.
Qed.

(** X7: when the URL is accepted, [CreateOAuthToken] sends one POST whose
    JSON body is a single [token] object with the members id (always 0),
    client_id, user_id (always 0) and scopes, in the order given, followed
    by expires_at only when it is not empty; a full_token is never sent. *)
Theorem create_token_request_body
  (c : Client) (clientID : Z) (scopes : list string) (expiresAt : string)
  (t : Trace) :
  url_Parse (tokens_url c) = None ->
  exists req,
    snd (CreateOAuthToken (Some c) clientID scopes expiresAt t)
    = (t ++ [req])%list
    /\ Method req = "POST"
    /\ Body req = Some (create_token_body clientID scopes expiresAt).
Proof.
  intros Hurl.
  destruct (CreateOAuthToken (Some c) clientID scopes expiresAt t)
    as [out t'] eqn:E.
  run_api E; try congruence;
    simpl; eexists; (split; [reflexivity|]); split; reflexivity.
Qed.

Lemma DeleteOAuthClient_no_content c id t out t' resp :
  DeleteOAuthClient c id t = (out, t') -> received t t' resp ->
  StatusCode resp = StatusNoContent -> out = Ok None.
Proof.
  intros E (req & -> & Hr) Hs. run_api E; same_request;
    repeat match goal with
           | H1 : http_RoundTrip ?t ?r = _, H2 : http_RoundTrip ?t ?r = _ |- _ =>
               rewrite H1 in H2; inversion H2; subst; clear H2
           end;
    try reflexivity.
  unfold StatusNoContent in *.
  match goal with
  | H : negb (_ =? _) = true |- _ =>
      apply negb_true_iff, Z.eqb_neq in H; congruence
  end.
Qed.

Lemma DeleteOAuthToken_no_content c id t out t' resp :
  DeleteOAuthToken c id t = (out, t') -> received t t' resp ->
  StatusCode resp = StatusNoContent -> out = Ok None.
Proof.
  intros E (req & -> & Hr) Hs. run_api E; same_request;
    repeat match goal with
           | H1 : http_RoundTrip ?t ?r = _, H2 : http_RoundTrip ?t ?r = _ |- _ =>
               rewrite H1 in H2; inversion H2; subst; clear H2
           end;
    try reflexivity.
  unfold StatusNoContent in *.
  match goal with
  | H : negb (_ =? _) = true |- _ =>
      apply negb_true_iff, Z.eqb_neq in H; congruence
  end.
Qed.

Lemma ReadOAuthClient_ok c id t out t' resp :
  ReadOAuthClient c id t = (out, t') -> received t t' resp ->
  StatusCode resp = StatusOK ->
  out = Ok match Decode_oauthClientWrapper (RespBody resp) with
           | inl err => (None, Some err)
           | inr result => (Some (wrapper_Client result), None)
           end.
Proof.
  intros E (req & -> & Hr) Hs. run_api E; same_request;
    repeat match goal with
           | H1 : http_RoundTrip ?t ?r = _, H2 : http_RoundTrip ?t ?r = _ |- _ =>
               rewrite H1 in H2; inversion H2; subst; clear H2
           end;
    repeat match goal with
           | H : ?x = _ |- context [match ?x with _ => _ end] => rewrite H
           end;
    try reflexivity;
    unfold StatusOK, StatusNotFound in *;
    repeat match goal with
           | H : negb _ = true |- _ => apply negb_true_iff in H
           | H : (_ =? _) = true |- _ => apply Z.eqb_eq in H
           | H : (_ =? _) = false |- _ => apply Z.eqb_neq in H
           end; congruence.
Qed.

Lemma CreateOAuthClient_returns c n i k d t msg t' :
  CreateOAuthClient (Some c) n i k d t <> (Panic msg, t').
Proof. intros E. run_api E. Qed.

Lemma ReadOAuthClient_returns c id t msg t' :
  ReadOAuthClient (Some c) id t <> (Panic msg, t').
Proof. intros E. run_api E. Qed.

Lemma DeleteOAuthClient_returns c id t msg t' :
  DeleteOAuthClient (Some c) id t <> (Panic msg, t').
Proof. intros E. run_api E. Qed.

Lemma CreateOAuthToken_returns c cid sc ex t msg t' :
  CreateOAuthToken (Some c) cid sc ex t <> (Panic msg, t').
Proof. intros E. run_api E. Qed.

Lemma ReadOAuthToken_returns c id t msg t' :
  ReadOAuthToken (Some c) id t <> (Panic msg, t').
Proof. intros E. run_api E. Qed.

Lemma DeleteOAuthToken_returns c id t msg t' :
  DeleteOAuthToken (Some c) id t <> (Panic msg, t').
Proof. intros E. run_api E. Qed.

Lemma api_trace_CreateOAuthClient c n i k d t out t' :
  CreateOAuthClient c n i k d t = (out, t') -> at_most_one_Do_call t t'.
Proof. intros E. unfold at_most_one_Do_call. run_api E; eauto. Qed.

Lemma api_trace_ReadOAuthClient c id t out t' :
  ReadOAuthClient c id t = (out, t') -> at_most_one_Do_call t t'.
Proof. intros E. unfold at_most_one_Do_call. run_api E; eauto. Qed.

Lemma api_trace_DeleteOAuthClient c id t out t' :
  DeleteOAuthClient c id t = (out, t') -> at_most_one_Do_call t t'.
Proof. intros E. unfold at_most_one_Do_call. run_api E; eauto. Qed.

Lemma api_trace_CreateOAuthToken c cid sc ex t out t' :
  CreateOAuthToken c cid sc ex t = (out, t') -> at_most_one_Do_call t t'.
Proof. intros E. unfold at_most_one_Do_call. run_api E; eauto. Qed.

Lemma api_trace_ReadOAuthToken c id t out t' :
  ReadOAuthToken c id t = (out, t') -> at_most_one_Do_call t t'.
Proof. intros E. unfold at_most_one_Do_call. run_api E; eauto. Qed.

Lemma api_trace_DeleteOAuthToken c id t out t' :
  DeleteOAuthToken c id t = (out, t') -> at_most_one_Do_call t t'.
Proof. intros E. unfold at_most_one_Do_call. run_api E; eauto. Qed.


Lemma CreateOAuthClient_sends_body c n i k d t out sent :
  CreateOAuthClient c n i k d t = (out, (t ++ [sent])%list) ->
  Body sent = Some (create_client_body n i k d).
Proof. intros E. run_api E; same_request; reflexivity. Qed.

Lemma CreateOAuthToken_sends_body c cid sc ex t out sent :
  CreateOAuthToken c cid sc ex t = (out, (t ++ [sent])%list) ->
  Body sent = Some (create_token_body cid sc ex).
Proof. intros E. run_api E; same_request; reflexivity. Qed.

Lemma CreateOAuthClient_id_in_range c n i k d t v t' :
  CreateOAuthClient c n i k d t = (Ok (Some v, None), t') ->
  in_int64 (OAuthClient.ID v).
Proof.
  intros E. run_api E.
  match goal with
  | H : Decode_oauthClientWrapper _ = inr _ |- _ =>
      exact (Decode_client_id_in_range _ _ H)
  end.
Qed.

Lemma CreateOAuthToken_id_in_range c cid sc ex t v t' :
  CreateOAuthToken c cid sc ex t = (Ok (Some v, None), t') ->
  in_int64 (OAuthToken.ID v).
Proof.
  intros E. run_api E.
  match goal with
  | H : Decode_oauthTokenWrapper _ = inr _ |- _ =>
      exact (proj1 (Decode_token_ids_in_range _ _ H))
  end.
Qed.

End MoreApiFacts.

(** ** The adapters, operation by operation *)

Section MoreAdapterFacts.
Context {W : World}.
Import tfsdk.

Ltac run_adapter E :=
  cbv [OAuthClientResource.Create OAuthClientResource.Read
       OAuthClientResource.Delete OAuthClientResource.Update
       OAuthTokenResource.Create OAuthTokenResource.Read
       OAuthTokenResource.Delete OAuthTokenResource.Update
       bind deref ret panic] in E;
  repeat (cbv beta iota in E;
          match type of E with
          | context [match ?x with _ => _ end] =>
              lazymatch x with
              | context [match _ with _ => _ end] => fail
              | _ => destruct x eqn:?
              end
          end);
  cbv beta iota in E;
  inversion E; subst; clear E.

Ltac by_api_trace :=
  first
    [ left; reflexivity
    | eapply api_trace_CreateOAuthClient; eassumption
    | eapply api_trace_ReadOAuthClient; eassumption
    | eapply api_trace_DeleteOAuthClient; eassumption
    | eapply api_trace_CreateOAuthToken; eassumption
    | eapply api_trace_ReadOAuthToken; eassumption
    | eapply api_trace_DeleteOAuthToken; eassumption ].

Lemma adapter_calls_Do_at_most_once_lemma :
  (forall r req resp0 t,
      at_most_one_Do_call t (snd (OAuthClientResource.Create r req resp0 t)))
  /\ (forall r req resp0 t,
         at_most_one_Do_call t (snd (OAuthClientResource.Read r req resp0 t)))
  /\ (forall r req resp0 t,
         at_most_one_Do_call t (snd (OAuthClientResource.Delete r req resp0 t)))
  /\ (forall r req resp0 t,
         at_most_one_Do_call t (snd (OAuthTokenResource.Create r req resp0 t)))
  /\ (forall r req resp0 t,
         at_most_one_Do_call t (snd (OAuthTokenResource.Read r req resp0 t)))
  /\ (forall r req resp0 t,
         at_most_one_Do_call t (snd (OAuthTokenResource.Delete r req resp0 t))).
Proof.
  repeat split; intros r req resp0 t;
    match goal with
    | |- at_most_one_Do_call _ (snd ?run) =>
        destruct run as [out t'] eqn:E
    end; simpl; run_adapter E; by_api_trace.
Qed.

(** X8: no adapter operation (create, read, delete on both resources)
    calls [c.http.Do] more than once, whatever the request, the response it
    starts from, the client and the server: an adapter never calls the API
    client twice and never retries.  Redirects followed inside the one call
    are not counted. *)
Theorem adapter_calls_Do_at_most_once :
  (forall r req resp0 t,
      at_most_one_Do_call t (snd (OAuthClientResource.Create r req resp0 t)))
  /\ (forall r req resp0 t,
         at_most_one_Do_call t (snd (OAuthClientResource.Read r req resp0 t)))
  /\ (forall r req resp0 t,
         at_most_one_Do_call t (snd (OAuthClientResource.Delete r req resp0 t)))
  /\ (forall r req resp0 t,
         at_most_one_Do_call t (snd (OAuthTokenResource.Create r req resp0 t)))
  /\ (forall r req resp0 t,
         at_most_one_Do_call t (snd (OAuthTokenResource.Read r req resp0 t)))
  /\ (forall r req resp0 t,
         at_most_one_Do_call t (snd (OAuthTokenResource.Delete r req resp0 t))).
Proof. exact adapter_calls_Do_at_most_once_lemma. Qed.

Ltac api_cannot_panic Hc :=
  match goal with
  | H : CreateOAuthClient _ _ _ _ _ _ = (Panic _, _) |- _ =>
      rewrite Hc in H; exact (CreateOAuthClient_returns _ _ _ _ _ _ _ _ H)
  | H : ReadOAuthClient _ _ _ = (Panic _, _) |- _ =>
      rewrite Hc in H; exact (ReadOAuthClient_returns _ _ _ _ _ H)
  | H : DeleteOAuthClient _ _ _ = (Panic _, _) |- _ =>
      rewrite Hc in H; exact (DeleteOAuthClient_returns _ _ _ _ _ H)
  | H : CreateOAuthToken _ _ _ _ _ = (Panic _, _) |- _ =>
      rewrite Hc in H; exact (CreateOAuthToken_returns _ _ _ _ _ _ _ H)
  | H : ReadOAuthToken _ _ _ = (Panic _, _) |- _ =>
      rewrite Hc in H; exact (ReadOAuthToken_returns _ _ _ _ _ H)
  | H : DeleteOAuthToken _ _ _ = (Panic _, _) |- _ =>
      rewrite Hc in H; exact (DeleteOAuthToken_returns _ _ _ _ _ H)
  | H : CreateOAuthClient _ _ _ _ _ _ = (Ok (None, None), _) |- _ =>
      destruct (CreateOAuthClient_some _ _ _ _ _ _ _ _ H); discriminate
  | H : CreateOAuthToken _ _ _ _ _ = (Ok (None, None), _) |- _ =>
      destruct (CreateOAuthToken_some _ _ _ _ _ _ _ H); discriminate
  end.

(** X9: an adapter that holds a client never panics: create, read and
    delete on both resources return a response whatever the server answers,
    a malformed or truncated body included. *)
Theorem configured_adapter_never_panics :
  (forall r c req resp0 t msg t',
      OAuthClientResource.client r = Some c ->
      OAuthClientResource.Create r req resp0 t <> (Panic msg, t'))
  /\ (forall r c req resp0 t msg t',
         OAuthClientResource.client r = Some c ->
         OAuthClientResource.Read r req resp0 t <> (Panic msg, t'))
  /\ (forall r c req resp0 t msg t',
         OAuthClientResource.client r = Some c ->
         OAuthClientResource.Delete r req resp0 t <> (Panic msg, t'))
  /\ (forall r c req resp0 t msg t',
         OAuthTokenResource.client r = Some c ->
         OAuthTokenResource.Create r req resp0 t <> (Panic msg, t'))
  /\ (forall r c req resp0 t msg t',
         OAuthTokenResource.client r = Some c ->
         OAuthTokenResource.Read r req resp0 t <> (Panic msg, t'))
  /\ (forall r c req resp0 t msg t',
         OAuthTokenResource.client r = Some c ->
         OAuthTokenResource.Delete r req resp0 t <> (Panic msg, t')).
Proof.
  repeat split; intros r c req resp0 t msg t' Hc E;
    run_adapter E; api_cannot_panic Hc.
Qed.

Ltac clash_on_HasError Herr :=
  match goal with
  | Hf : diag.HasError _ = false |- _ =>
      exfalso; exact (Bool.diff_false_true (eq_trans (eq_sym Hf) Herr))
  end.

(** X10: an adapter operation that ends with an error diagnostic has not
    touched the state: create, read and delete on both resources write or
    remove state only on the path that reports no error. *)
Theorem error_leaves_state_untouched :
  (forall r req resp0 t resp1 t',
      OAuthClientResource.Create r req resp0 t = (Ok resp1, t') ->
      diag.HasError (Diagnostics resp1) = true -> State resp1 = State resp0)
  /\ (forall r req resp0 t resp1 t',
         OAuthClientResource.Read r req resp0 t = (Ok resp1, t') ->
         diag.HasError (Diagnostics resp1) = true -> State resp1 = State resp0)
  /\ (forall r req resp0 t resp1 t',
         OAuthClientResource.Delete r req resp0 t = (Ok resp1, t') ->
         diag.HasError (Diagnostics resp1) = true -> State resp1 = State resp0)
  /\ (forall r req resp0 t resp1 t',
         OAuthTokenResource.Create r req resp0 t = (Ok resp1, t') ->
         diag.HasError (Diagnostics resp1) = true -> State resp1 = State resp0)
  /\ (forall r req resp0 t resp1 t',
         OAuthTokenResource.Read r req resp0 t = (Ok resp1, t') ->
         diag.HasError (Diagnostics resp1) = true -> State resp1 = State resp0)
  /\ (forall r req resp0 t resp1 t',
         OAuthTokenResource.Delete r req resp0 t = (Ok resp1, t') ->
         diag.HasError (Diagnostics resp1) = true -> State resp1 = State resp0).
Proof.
  repeat split; intros r req resp0 t resp1 t' E Herr;
    run_adapter E; try reflexivity; simpl in Herr; clash_on_HasError Herr.
Qed.

(** X11: delete never writes or removes state, whatever happens; and when
    the server answers 204 it adds no diagnostic of its own: the response is
    the one it was given, with the diagnostics of decoding the state. *)
Theorem delete_leaves_state_to_the_framework :
  (forall r req resp0 t resp1 t',
      OAuthClientResource.Delete r req resp0 t = (Ok resp1, t') ->
      State resp1 = State resp0)
  /\ (forall r req resp0 t resp1 t',
         OAuthTokenResource.Delete r req resp0 t = (Ok resp1, t') ->
         State resp1 = State resp0)
  /\ (forall r req resp0 t out t' resp,
         OAuthClientResource.Delete r req resp0 t = (out, t') ->
         received t t' resp -> StatusCode resp = StatusNoContent ->
         out = Ok (Diagnostics_Append resp0 (Get_diags (Delete_State req)))
         /\ diag.HasError
              (diag.Append (Diagnostics resp0) (Get_diags (Delete_State req)))
            = false)
  /\ (forall r req resp0 t out t' resp,
         OAuthTokenResource.Delete r req resp0 t = (out, t') ->
         received t t' resp -> StatusCode resp = StatusNoContent ->
         out = Ok (Diagnostics_Append resp0 (Get_diags (Delete_State req)))
         /\ diag.HasError
              (diag.Append (Diagnostics resp0) (Get_diags (Delete_State req)))
            = false).
Proof.
  split; [|split; [|split]].
  - intros r req resp0 t resp1 t' E. run_adapter E; reflexivity.
  - intros r req resp0 t resp1 t' E. run_adapter E; reflexivity.
  - intros r req resp0 t out t' resp E R Hs.
    run_adapter E; try (exfalso; exact (received_not_same _ _ R));
      match goal with
      | H : DeleteOAuthClient _ _ _ = _ |- _ =>
          eapply DeleteOAuthClient_no_content in H; [|eassumption..];
          inversion H
      end.
    split; [reflexivity|assumption].
  - intros r req resp0 t out t' resp E R Hs.
    run_adapter E; try (exfalso; exact (received_not_same _ _ R));
      match goal with
      | H : DeleteOAuthToken _ _ _ = _ |- _ =>
          eapply DeleteOAuthToken_no_content in H; [|eassumption..];
          inversion H
      end.
    split; [reflexivity|assumption].
Qed.

Lemma client_read_ok :
  forall r req resp0 t out t' resp w,
    OAuthClientResource.Read r req resp0 t = (out, t') ->
    received t t' resp ->
    StatusCode resp = StatusOK ->
    Decode_oauthClientWrapper (RespBody resp) = inr w ->
    out = Ok {| State :=
                  Some {| OAuthClientResourceModel.ID :=
                            OAuthClientResourceModel.ID
                              (Get_value (Read_State req));
                          OAuthClientResourceModel.Name :=
                            types.known (OAuthClient.Name (wrapper_Client w));
                          OAuthClientResourceModel.Identifier :=
                            types.known
                              (OAuthClient.Identifier (wrapper_Client w));
                          OAuthClientResourceModel.Kind :=
                            types.known (OAuthClient.Kind (wrapper_Client w));
                          OAuthClientResourceModel.Description :=
                            types.known
                              (OAuthClient.Description (wrapper_Client w)) |};
                Diagnostics :=
                  diag.Append (Diagnostics resp0) (Get_diags (Read_State req)) |}.
Proof.
  intros r req resp0 t out t' resp w E R Hs Hdec.
  run_adapter E; try (exfalso; exact (received_not_same _ _ R));
    match goal with
    | H : ReadOAuthClient _ _ _ = _ |- _ =>
        eapply ReadOAuthClient_ok in H; [|eassumption..];
        rewrite Hdec in H; inversion H; subst
    end.
  reflexivity.
Qed.

Lemma token_read_ok :
  forall r req resp0 t out t' resp w,
    OAuthTokenResource.Read r req resp0 t = (out, t') ->
    received t t' resp ->
    StatusCode resp = StatusOK ->
    Decode_oauthTokenWrapper (RespBody resp) = inr w ->
    out = Ok {| State :=
                  Some {| OAuthTokenResourceModel.ID :=
                            OAuthTokenResourceModel.ID
                              (Get_value (Read_State req));
                          OAuthTokenResourceModel.ClientID :=
                            types.known
                              (strconv.FormatInt
                                 (OAuthToken.ClientID (wrapper_Token w)));
                          OAuthTokenResourceModel.Scopes :=
                            map types.known (OAuthToken.Scopes (wrapper_Token w));
                          OAuthTokenResourceModel.FullToken :=
                            OAuthTokenResourceModel.FullToken
                              (Get_value (Read_State req));
                          OAuthTokenResourceModel.ExpiresAt :=
                            types.known
                              (OAuthToken.ExpiresAt (wrapper_Token w)) |};
                Diagnostics :=
                  diag.Append (Diagnostics resp0) (Get_diags (Read_State req)) |}.
Proof.
  intros r req resp0 t out t' resp w E R Hs Hdec.
  run_adapter E; try (exfalso; exact (received_not_same _ _ R));
    match goal with
    | H : ReadOAuthToken _ _ _ = _ |- _ =>
        eapply ReadOAuthToken_ok in H; [|eassumption..];
        rewrite Hdec in H; inversion H; subst
    end.
  reflexivity.
Qed.

(** X12: a client read that receives 200 with a body that decodes writes
    the state it read with name, identifier, kind and description replaced
    by the record's values, also by empty ones, and with the id it read
    unchanged, whatever id the body carries. *)
Theorem client_read_refreshes_all_but_id :
  forall r req resp0 t out t' resp w,
    OAuthClientResource.Read r req resp0 t = (out, t') ->
    received t t' resp ->
    StatusCode resp = StatusOK ->
    Decode_oauthClientWrapper (RespBody resp) = inr w ->
    out = Ok {| State :=
                  Some {| OAuthClientResourceModel.ID :=
                            OAuthClientResourceModel.ID
                              (Get_value (Read_State req));
                          OAuthClientResourceModel.Name :=
                            types.known (OAuthClient.Name (wrapper_Client w));
                          OAuthClientResourceModel.Identifier :=
                            types.known
                              (OAuthClient.Identifier (wrapper_Client w));
                          OAuthClientResourceModel.Kind :=
                            types.known (OAuthClient.Kind (wrapper_Client w));
                          OAuthClientResourceModel.Description :=
                            types.known
                              (OAuthClient.Description (wrapper_Client w)) |};
                Diagnostics :=
                  diag.Append (Diagnostics resp0) (Get_diags (Read_State req)) |}.
Proof. exact client_read_ok. Qed.

(** X13: the id a create writes is one the later operations can read: on
    a create that started without state and wrote one, the id is the
    decimal form of an int64, and [ParseInt], as read and delete apply it to
    the stored id, returns that number without error. *)
Theorem created_id_parses_back :
  (forall r req resp0 t resp1 t' st,
      State resp0 = None ->
      OAuthClientResource.Create r req resp0 t = (Ok resp1, t') ->
      State resp1 = Some st ->
      exists id,
        in_int64 id
        /\ OAuthClientResourceModel.ID st = types.known (strconv.FormatInt id)
        /\ strconv.ParseInt (types.ValueString (OAuthClientResourceModel.ID st))
           = (id, None))
  /\
  (forall r req resp0 t resp1 t' st,
      State resp0 = None ->
      OAuthTokenResource.Create r req resp0 t = (Ok resp1, t') ->
      State resp1 = Some st ->
      exists id,
        in_int64 id
        /\ OAuthTokenResourceModel.ID st = types.known (strconv.FormatInt id)
        /\ strconv.ParseInt (types.ValueString (OAuthTokenResourceModel.ID st))
           = (id, None)).
Proof.
  split; intros r req resp0 t resp1 t' st Hnone E Hst;
    run_adapter E; simpl in Hst; try congruence;
    inversion Hst; subst; simpl.
  - match goal with
    | H : CreateOAuthClient _ _ _ _ _ _ = _ |- _ =>
        apply CreateOAuthClient_id_in_range in H
    end.
    eexists. split; [eassumption|]. split; [reflexivity|].
    now apply strconv_facts.ParseInt_FormatInt.
  - match goal with
    | H : CreateOAuthToken _ _ _ _ _ = _ |- _ =>
        apply CreateOAuthToken_id_in_range in H
    end.
    eexists. split; [eassumption|]. split; [reflexivity|].
    now apply strconv_facts.ParseInt_FormatInt.
Qed.

(** X14: the body an adapter's create sends is built from the plan's
    values as [ValueString] reads them, so a null or unknown value goes out
    as the empty string; in particular an optional description or
    expires_at that is null, unknown or empty is left out of the body. *)
Theorem create_sends_plan_values :
  (forall r req resp0 t out sent,
      OAuthClientResource.Create r req resp0 t = (out, (t ++ [sent])%list) ->
      let plan := Get_value (Create_Plan req) in
      Body sent
      = Some (create_client_body
                (types.ValueString (OAuthClientResourceModel.Name plan))
                (types.ValueString (OAuthClientResourceModel.Identifier plan))
                (types.ValueString (OAuthClientResourceModel.Kind plan))
                (types.ValueString (OAuthClientResourceModel.Description plan)))
      /\ (types.ValueString (OAuthClientResourceModel.Description plan) = "" ->
          Body sent
          = Some (json.Object
                    [("client",
                      json.Object
                        [("id", json.Number "0");
                         ("name",
                          json.String_
                            (types.ValueString
                               (OAuthClientResourceModel.Name plan)));
                         ("identifier",
                          json.String_
                            (types.ValueString
                               (OAuthClientResourceModel.Identifier plan)));
                         ("kind",
                          json.String_
                            (types.ValueString
                               (OAuthClientResourceModel.Kind plan)))])])))
  /\
  (forall r req resp0 t out sent,
      OAuthTokenResource.Create r req resp0 t = (out, (t ++ [sent])%list) ->
      let plan := Get_value (Create_Plan req) in
      exists clientID,
        strconv.ParseInt
          (types.ValueString (OAuthTokenResourceModel.ClientID plan))
        = (clientID, None)
        /\ Body sent
           = Some (create_token_body clientID
                     (map types.ValueString (OAuthTokenResourceModel.Scopes plan))
                     (types.ValueString (OAuthTokenResourceModel.ExpiresAt plan)))
        /\ (types.ValueString (OAuthTokenResourceModel.ExpiresAt plan) = "" ->
            Body sent
            = Some (json.Object
                      [("token",
                        json.Object
                          [("id", json.Number "0");
                           ("client_id",
                            json.Number (strconv.FormatInt clientID));
                           ("user_id", json.Number "0");
                           ("scopes",
                            json.Array
                              (map json.String_
                                 (map types.ValueString
                                    (OAuthTokenResourceModel.Scopes plan))))])]))).
Proof.
  split.
  - intros r req resp0 t out sent E plan.
    assert (Hb : Body sent
                 = Some (create_client_body
                           (types.ValueString (OAuthClientResourceModel.Name plan))
                           (types.ValueString
                              (OAuthClientResourceModel.Identifier plan))
                           (types.ValueString (OAuthClientResourceModel.Kind plan))
                           (types.ValueString
                              (OAuthClientResourceModel.Description plan)))).
    { run_adapter E;
        try match goal with
            | H : ?t = (?t ++ [_])%list |- _ =>
                exfalso; exact (trace_grows_not_same _ _ H)
            end;
        match goal with
        | H : CreateOAuthClient _ _ _ _ _ _ = _ |- _ =>
            exact (CreateOAuthClient_sends_body _ _ _ _ _ _ _ _ H)
        end. }
    split; [exact Hb|]. intros Hd. rewrite Hb. unfold create_client_body.
    rewrite Hd. reflexivity.
  - intros r req resp0 t out sent E plan.
    run_adapter E;
      try match goal with
          | H : ?t = (?t ++ [_])%list |- _ =>
              exfalso; exact (trace_grows_not_same _ _ H)
          end;
      match goal with
      | H : CreateOAuthToken _ ?cid _ _ _ = _ |- _ =>
          pose proof (CreateOAuthToken_sends_body _ _ _ _ _ _ _ H) as Hb;
          exists cid
      end;
      (split; [eassumption|]);
      (split; [exact Hb|]);
      intros Hd; rewrite Hb; unfold create_token_body;
      subst plan; rewrite Hd; reflexivity.
Qed.




(** X17: read is idempotent: when a read received 200 and wrote a state,
    a second read that starts from that state and receives 200 with a body
    decoding to the same record writes the same state again. *)
Theorem read_is_idempotent :
  (forall r req resp0 t out1 t1 resp w st1 t2 out2 t3 resp',
      OAuthClientResource.Read r req resp0 t = (out1, t1) ->
      received t t1 resp -> StatusCode resp = StatusOK ->
      Decode_oauthClientWrapper (RespBody resp) = inr w ->
      out1 = Ok {| State := Some st1;
                   Diagnostics :=
                     diag.Append (Diagnostics resp0) (Get_diags (Read_State req)) |} ->
      OAuthClientResource.Read r
        {| Read_State := {| Get_diags := []; Get_value := st1 |} |}
        {| State := Some st1; Diagnostics := [] |} t2 = (out2, t3) ->
      received t2 t3 resp' -> StatusCode resp' = StatusOK ->
      Decode_oauthClientWrapper (RespBody resp') = inr w ->
      out2 = Ok {| State := Some st1; Diagnostics := [] |})
  /\
  (forall r req resp0 t out1 t1 resp w st1 t2 out2 t3 resp',
      OAuthTokenResource.Read r req resp0 t = (out1, t1) ->
      received t t1 resp -> StatusCode resp = StatusOK ->
      Decode_oauthTokenWrapper (RespBody resp) = inr w ->
      out1 = Ok {| State := Some st1;
                   Diagnostics :=
                     diag.Append (Diagnostics resp0) (Get_diags (Read_State req)) |} ->
      OAuthTokenResource.Read r
        {| Read_State := {| Get_diags := []; Get_value := st1 |} |}
        {| State := Some st1; Diagnostics := [] |} t2 = (out2, t3) ->
      received t2 t3 resp' -> StatusCode resp' = StatusOK ->
      Decode_oauthTokenWrapper (RespBody resp') = inr w ->
      out2 = Ok {| State := Some st1; Diagnostics := [] |}).
Proof.
  split.
  - intros r req resp0 t out1 t1 resp w st1 t2 out2 t3 resp'
      E1 R1 Hs1 Hd1 Hout1 E2 R2 Hs2 Hd2.
    rewrite (client_read_ok _ _ _ _ _ _ _ _ E1 R1 Hs1 Hd1) in Hout1.
    rewrite (client_read_ok _ _ _ _ _ _ _ _ E2 R2 Hs2 Hd2).
    inversion Hout1; subst. reflexivity.
  - intros r req resp0 t out1 t1 resp w st1 t2 out2 t3 resp'
      E1 R1 Hs1 Hd1 Hout1 E2 R2 Hs2 Hd2.
    rewrite (token_read_ok _ _ _ _ _ _ _ _ E1 R1 Hs1 Hd1) in Hout1.
    rewrite (token_read_ok _ _ _ _ _ _ _ _ E2 R2 Hs2 Hd2).
    inversion Hout1; subst. reflexivity.
Qed.

Lemma token_read_trace r req resp0 t out t' :
  OAuthTokenResource.Read r req resp0 t = (out, t') -> at_most_one_Do_call t t'.
Proof.
  intros E.
  pose proof (proj1 (proj2 (proj2 (proj2 (proj2
                adapter_calls_Do_at_most_once_lemma))))
                r req resp0 t) as H.
  now rewrite E in H.
Qed.

Lemma token_refreshes_trace r n : forall st t out t',
  token_refreshes r n st t = (out, t') ->
  exists sent, t' = (t ++ sent)%list /\ (List.length sent <= n)%nat.
Proof.
  induction n as [|n IH]; intros st t out t' E.
  - inversion E; subst. exists []. rewrite app_nil_r. auto.
  - simpl in E. destruct st as [s|].
    + unfold bind in E.
      destruct (OAuthTokenResource.Read r _ _ t) as [[resp1|msg] t1] eqn:Hread;
        apply token_read_trace in Hread.
      * apply IH in E. destruct E as (sent & -> & Hlen).
        destruct Hread as [->|[req ->]].
        -- exists sent. split; [reflexivity|lia].
        -- exists (req :: sent). rewrite <- app_assoc. split; [reflexivity|].
           simpl. lia.
      * inversion E; subst.
        destruct Hread as [->|[req ->]].
        -- exists []. rewrite app_nil_r. split; [reflexivity|simpl; lia].
        -- exists [req]. split; [reflexivity|simpl; lia].
    + inversion E; subst. exists []. rewrite app_nil_r.
      split; [reflexivity|simpl; lia].
Qed.

(** X18: [n] refreshes of a token call [c.http.Do] at most [n] times, one
    call at most for each refresh, and never once the resource is no longer
    tracked.  Redirects followed inside a call are not counted. *)
Theorem refreshes_call_Do_at_most_once_each :
  (forall r n st t out t',
      token_refreshes r n st t = (out, t') ->
      exists sent, t' = (t ++ sent)%list /\ (List.length sent <= n)%nat)
  /\ (forall r n t, token_refreshes r n None t = (Ok None, t)).
Proof.
  split.
  - intros r n. apply token_refreshes_trace.
  - intros r n t. destruct n; reflexivity.
Qed.

End MoreAdapterFacts.

(** ** The provider: what its Configure accepts *)

Module provider_facts.
Import types ZendeskProviderModel.

Lemma HasError_AddAttributeError ds path summary detail :
  diag.HasError (diag.AddAttributeError ds path summary detail) = true.
Proof.
  apply diag_facts.HasError_In
    with (d := diag.NewAttributeErrorDiagnostic path summary detail).
  - unfold diag.AddAttributeError. apply diag_facts.Append_adds. now left.
  - reflexivity.
Qed.

Lemma HasError_after_check (b : bool) ds path summary detail :
  diag.HasError (if b then diag.AddAttributeError ds path summary detail else ds)
  = b || diag.HasError ds.
Proof.
  destruct b; simpl; [apply HasError_AddAttributeError|reflexivity].
Qed.

Lemma In_after_check (b : bool) ds path summary detail x :
  In x ds ->
  In x (if b then diag.AddAttributeError ds path summary detail else ds).
Proof.
  intros H. destruct b; [|assumption].
  unfold diag.AddAttributeError. now apply diag_facts.Append_keeps.
Qed.

Lemma In_added ds path summary detail :
  In (diag.NewAttributeErrorDiagnostic path summary detail)
     (diag.AddAttributeError ds path summary detail).
Proof. unfold diag.AddAttributeError. apply diag_facts.Append_adds. now left. Qed.

Ltac crunch H0 :=
  repeat first
    [ rewrite HasError_AddAttributeError
    | rewrite H0
    | progress cbn [ZendeskProvider.with_Diagnostics
                    ZendeskProvider.Diagnostics orb] ].

(** X19: when decoding the configuration reported no error, Configure
    reports an error exactly when one of subdomain, email and API token is
    unknown or, after the explicit value is merged over the environment
    variable, empty. *)
Theorem configure_error_exactly_when_a_value_is_missing
  (Getenv : string -> string) (Config : tfsdk.Data ZendeskProviderModel.t)
  (resp : ZendeskProvider.ConfigureResponse) :
  let config := tfsdk.Get_value Config in
  diag.HasError
    (diag.Append (ZendeskProvider.Diagnostics resp) (tfsdk.Get_diags Config))
  = false ->
  diag.HasError
    (ZendeskProvider.Diagnostics (ZendeskProvider.Configure Getenv Config resp))
  = IsUnknown (Subdomain config) || IsUnknown (Email config)
    || IsUnknown (APIToken config)
    || String.eqb
         (ZendeskProvider.merged Getenv (Subdomain config) "ZENDESK_SUBDOMAIN") ""
    || String.eqb
         (ZendeskProvider.merged Getenv (Email config) "ZENDESK_EMAIL") ""
    || String.eqb
         (ZendeskProvider.merged Getenv (APIToken config) "ZENDESK_API_TOKEN") "".
Proof.
  intros config H0. unfold ZendeskProvider.Configure, ZendeskProvider.merged.
  cbv zeta. fold config. rewrite H0.
  destruct (IsUnknown (Subdomain config)) eqn:Us;
    destruct (IsUnknown (Email config)) eqn:Ue;
    destruct (IsUnknown (APIToken config)) eqn:Ua;
    crunch H0; try reflexivity.
  repeat match goal with
         | |- context [String.eqb ?a ""] =>
             lazymatch a with
             | context [String.eqb _ _] => fail
             | _ => destruct (String.eqb a "") eqn:?
             end
         end;
    crunch H0; reflexivity.
Qed.

(** X20: explicit configuration takes precedence: when subdomain, email
    and API token are all given (not null), the environment plays no part
    in what Configure returns. *)
Theorem explicit_configuration_hides_environment
  (Getenv Getenv' : string -> string) (Config : tfsdk.Data ZendeskProviderModel.t)
  (resp : ZendeskProvider.ConfigureResponse) :
  let config := tfsdk.Get_value Config in
  IsNull (Subdomain config) = false ->
  IsNull (Email config) = false ->
  IsNull (APIToken config) = false ->
  ZendeskProvider.Configure Getenv Config resp
  = ZendeskProvider.Configure Getenv' Config resp.
Proof.
  intros config Hs He Ha. unfold ZendeskProvider.Configure.
  cbv zeta. fold config. rewrite Hs, He, Ha. reflexivity.
Qed.

(** X21: Configure does not stop at the first missing value: when nothing
    is unknown and decoding reported no error, each of the three values
    that is empty after the merge gets its own attribute error. *)
Theorem every_missing_value_is_reported
  (Getenv : string -> string) (Config : tfsdk.Data ZendeskProviderModel.t)
  (resp : ZendeskProvider.ConfigureResponse) :
  let config := tfsdk.Get_value Config in
  let ds := ZendeskProvider.Diagnostics
              (ZendeskProvider.Configure Getenv Config resp) in
  diag.HasError
    (diag.Append (ZendeskProvider.Diagnostics resp) (tfsdk.Get_diags Config))
  = false ->
  IsUnknown (Subdomain config) = false ->
  IsUnknown (Email config) = false ->
  IsUnknown (APIToken config) = false ->
  (ZendeskProvider.merged Getenv (Subdomain config) "ZENDESK_SUBDOMAIN" = "" ->
   In (diag.NewAttributeErrorDiagnostic "subdomain" "Missing Zendesk subdomain"
         "The provider cannot create the Zendesk API client as the subdomain is missing.")
      ds)
  /\ (ZendeskProvider.merged Getenv (Email config) "ZENDESK_EMAIL" = "" ->
      In (diag.NewAttributeErrorDiagnostic "email" "Missing Zendesk email"
            "The provider cannot create the Zendesk API client as the email is missing.")
         ds)
  /\ (ZendeskProvider.merged Getenv (APIToken config) "ZENDESK_API_TOKEN" = "" ->
      In (diag.NewAttributeErrorDiagnostic "api_token" "Missing Zendesk API token"
            "The provider cannot create the Zendesk API client as the API token is missing.")
         ds).
Proof.
  intros config ds H0 Us Ue Ua. subst ds.
  unfold ZendeskProvider.Configure, ZendeskProvider.merged.
  cbv zeta. fold config. rewrite H0, Us, Ue, Ua. cbv iota. rewrite H0.
  repeat split; intros Hm; rewrite Hm; cbn [String.eqb];
    match goal with
    | |- In _ (ZendeskProvider.Diagnostics (if ?b then _ else _)) =>
        destruct b
    end; cbn [ZendeskProvider.with_Diagnostics ZendeskProvider.Diagnostics];
    repeat first [ apply In_added | apply In_after_check ].
Qed.

End provider_facts.

(** ** Type names *)

Lemma append_same_prefix (p a b : string) : p ++ a = p ++ b -> a = b.
Proof.
  induction p as [|c p IH]; simpl; intros H; [assumption|].
  inversion H. auto.
Qed.

(** X22: the two resources never get the same type name, whatever name
    the provider reports; under this provider's own Metadata they are
    zendesk_oauth_client and zendesk_oauth_token, the names the examples
    use. *)
Theorem resource_type_names_are_distinct :
  (forall req resp1 resp2,
      resourceMetadata.TypeName (OAuthClientResource_Metadata req resp1)
      <> resourceMetadata.TypeName (OAuthTokenResource_Metadata req resp2))
  /\ (forall version presp resp1 resp2,
         let name :=
           providerMetadata.TypeName (ZendeskProvider_Metadata version presp) in
         resourceMetadata.TypeName
           (OAuthClientResource_Metadata
              {| resourceMetadata.ProviderTypeName := name |} resp1)
         = "zendesk_oauth_client"
         /\ resourceMetadata.TypeName
              (OAuthTokenResource_Metadata
                 {| resourceMetadata.ProviderTypeName := name |} resp2)
            = "zendesk_oauth_token").
Proof.
  split.
  - intros req resp1 resp2 H. simpl in H.
    apply append_same_prefix in H. discriminate.
  - intros. split; reflexivity.
Qed.

(** ** The further properties at concrete inputs *)

Lemma client_envelope_round_trip_witness :
  in_int64 42
  /\ client_strings_valid fixture2.a_client = true
  /\ @json_Scan fixture2.read_client_world (fixture.render fixture2.client_doc)
     = inr (oauthClientWrapperJSON.Marshal
              {| wrapper_Client := fixture2.a_client |})
  /\ @Decode_oauthClientWrapper fixture2.read_client_world
       (fixture.render fixture2.client_doc)
     = inr {| wrapper_Client := fixture2.a_client |}.
Proof.
  assert (H : in_int64 42) by (unfold in_int64; simpl; lia).
  split; [exact H|]. split; [reflexivity|]. split; [reflexivity|].
  exact (@client_envelope_round_trip fixture2.read_client_world
           (fixture.render fixture2.client_doc)
           {| wrapper_Client := fixture2.a_client |} H eq_refl eq_refl).
Defined.

Lemma token_envelope_round_trip_witness :
  (in_int64 7 /\ in_int64 42 /\ in_int64 3
   /\ token_strings_valid fixture2.a_token = true
   /\ @Decode_oauthTokenWrapper fixture2.echo_token_world
        (fixture.render fixture2.token_doc)
      = inr {| wrapper_Token := fixture2.a_token |})
  /\ (in_int64 9
      /\ token_strings_valid fixture3.nil_scopes_token = true
      /\ OAuthToken.Scopes fixture3.nil_scopes_token = []
      /\ @json_Scan fixture3.nil_scopes_world
           (fixture.render fixture3.nil_scopes_doc)
         = inr (token_envelope_nil_scopes fixture3.nil_scopes_token)
      /\ @Decode_oauthTokenWrapper fixture3.nil_scopes_world
           (fixture.render fixture3.nil_scopes_doc)
         = inr {| wrapper_Token := fixture3.nil_scopes_token |}).
Proof.
  assert (H7 : in_int64 7) by (unfold in_int64; simpl; lia).
  assert (H42 : in_int64 42) by (unfold in_int64; simpl; lia).
  assert (H3 : in_int64 3) by (unfold in_int64; simpl; lia).
  assert (H9 : in_int64 9) by (unfold in_int64; simpl; lia).
  split.
  - split; [exact H7|]. split; [exact H42|]. split; [exact H3|].
    split; [reflexivity|].
    exact (proj1 (@token_envelope_round_trip fixture2.echo_token_world
                    (fixture.render fixture2.token_doc)
                    {| wrapper_Token := fixture2.a_token |}
                    H7 H42 H3 eq_refl)
             eq_refl).
  - split; [exact H9|]. split; [reflexivity|]. split; [reflexivity|].
    split; [reflexivity|].
    exact (proj2 (@token_envelope_round_trip fixture3.nil_scopes_world
                    (fixture.render fixture3.nil_scopes_doc)
                    {| wrapper_Token := fixture3.nil_scopes_token |}
                    H9 H42 H3 eq_refl)
             eq_refl eq_refl).
Defined.

Lemma api_request_is_well_formed_witness :
  exists req,
    snd (@returned_error fixture.not_found_world (OpReadOAuthClient 42)
           (Some fixture.acme) [])
    = [req]
    /\ Method req = "GET"
    /\ URL req = "https://acme.zendesk.com/api/v2/oauth/clients/42.json"
    /\ BasicAuth req = Some ("admin@acme.test/token", "secret")
    /\ ContentType req = None
    /\ (false = false -> Body req = None).
Proof.
  eexists. split; [reflexivity|].
  exact (@api_request_is_well_formed fixture.not_found_world
           (OpReadOAuthClient 42) fixture.acme [] _ _ eq_refl).
Defined.

Lemma api_forwards_transport_error_witness :
  exists req,
    snd (@returned_error fixture2.unreachable_world
           (OpCreateOAuthToken 42 ["read"] "") (Some fixture.acme) [])
    = [req]
    /\ @http_RoundTrip fixture2.unreachable_world [] req
       = inl (url_Error "dial tcp: lookup acme.zendesk.com: no such host")
    /\ fst (@returned_error fixture2.unreachable_world
              (OpCreateOAuthToken 42 ["read"] "") (Some fixture.acme) [])
       = Ok (Some (url_Error "dial tcp: lookup acme.zendesk.com: no such host")).
Proof.
  eexists. split; [reflexivity|]. split; [reflexivity|].
  exact (@api_forwards_transport_error fixture2.unreachable_world
           (OpCreateOAuthToken 42 ["read"] "") (Some fixture.acme) [] _ _ _
           eq_refl eq_refl).
Defined.

Lemma api_rejected_url_sends_nothing_witness :
  @url_Parse fixture2.no_url_world
    (request_url (OpDeleteOAuthClient 42) fixture.acme)
  = Some (url_Error "invalid character in host name")
  /\ @returned_error fixture2.no_url_world (OpDeleteOAuthClient 42)
       (Some fixture.acme) []
     = (Ok (Some (url_Error "invalid character in host name")), []).
Proof.
  split; [reflexivity|].
  exact (@api_rejected_url_sends_nothing fixture2.no_url_world
           (OpDeleteOAuthClient 42) fixture.acme [] _ eq_refl).
Defined.

Lemma create_token_request_body_witness :
  @url_Parse fixture.created_token_world (tokens_url fixture.acme) = None
  /\ exists req,
       snd (@CreateOAuthToken fixture.created_token_world (Some fixture.acme)
              42 ["read"; "write"] "" [])
       = ([] ++ [req])%list
       /\ Method req = "POST"
       /\ Body req = Some (create_token_body 42 ["read"; "write"] "").
Proof.
  split; [reflexivity|].
  exact (@create_token_request_body fixture.created_token_world fixture.acme
           42 ["read"; "write"] "" [] eq_refl).
Defined.

Lemma configured_adapter_never_panics_witness :
  OAuthClientResource.client fixture.client_resource = Some fixture.acme
  /\ @OAuthClientResource.Create fixture2.string_id_world fixture.client_resource
       {| Create_Plan := fixture.data fixture.client_plan |}
       (fixture.empty_response None) []
     <> (Panic nil_dereference, []).
Proof.
  split; [reflexivity|].
  exact (proj1 (@configured_adapter_never_panics fixture2.string_id_world)
           fixture.client_resource fixture.acme
           {| Create_Plan := fixture.data fixture.client_plan |}
           (fixture.empty_response None) [] nil_dereference [] eq_refl).
Defined.

Lemma error_leaves_state_untouched_witness :
  exists resp1 t',
    @OAuthClientResource.Read fixture.failing_world fixture.client_resource
      {| Read_State := fixture.data (fixture.client_state "42") |}
      (fixture.empty_response (Some (fixture.client_state "42"))) []
    = (Ok resp1, t')
    /\ diag.HasError (tfsdk.Diagnostics resp1) = true
    /\ tfsdk.State resp1 = Some (fixture.client_state "42").
Proof.
  eexists. eexists. split; [reflexivity|]. split; [reflexivity|].
  exact (proj1 (proj2 (@error_leaves_state_untouched fixture.failing_world))
           fixture.client_resource
           {| Read_State := fixture.data (fixture.client_state "42") |}
           (fixture.empty_response (Some (fixture.client_state "42"))) []
           _ _ eq_refl eq_refl).
Defined.

Lemma delete_leaves_state_to_the_framework_witness :
  StatusCode {| StatusCode := 204; RespBody := "" |} = StatusNoContent
  /\ fst (@OAuthClientResource.Delete fixture2.deleted_world
            fixture.client_resource
            {| Delete_State := fixture.data (fixture.client_state "42") |}
            (fixture.empty_response (Some (fixture.client_state "42"))) [])
     = Ok (fixture.empty_response (Some (fixture.client_state "42")))
  /\ diag.HasError (diag.Append [] []) = false.
Proof.
  split; [reflexivity|].
  apply (proj1 (proj2 (proj2
           (@delete_leaves_state_to_the_framework fixture2.deleted_world)))
           fixture.client_resource
           {| Delete_State := fixture.data (fixture.client_state "42") |}
           (fixture.empty_response (Some (fixture.client_state "42"))) []
           _ _ {| StatusCode := 204; RespBody := "" |}
           (surjective_pairing _)).
  - eexists. split; reflexivity.
  - reflexivity.
Defined.

Lemma client_read_refreshes_all_but_id_witness :
  @Decode_oauthClientWrapper fixture2.read_client_world
    (fixture.render fixture2.client_doc)
  = inr {| wrapper_Client := fixture2.a_client |}
  /\ fst (@OAuthClientResource.Read fixture2.read_client_world
            fixture.client_resource
            {| Read_State := fixture.data (fixture.client_state "999") |}
            (fixture.empty_response (Some (fixture.client_state "999"))) [])
     = Ok {| tfsdk.State :=
               Some {| OAuthClientResourceModel.ID := types.known "999";
                       OAuthClientResourceModel.Name := types.known "Basic Client";
                       OAuthClientResourceModel.Identifier :=
                         types.known "basic_client";
                       OAuthClientResourceModel.Kind := types.known "public";
                       OAuthClientResourceModel.Description :=
                         types.known "a description" |};
             tfsdk.Diagnostics := [] |}.
Proof.
  split; [reflexivity|].
  apply (@client_read_refreshes_all_but_id fixture2.read_client_world
           fixture.client_resource
           {| Read_State := fixture.data (fixture.client_state "999") |}
           (fixture.empty_response (Some (fixture.client_state "999"))) []
           _ _ {| StatusCode := 200;
                  RespBody := fixture.render fixture2.client_doc |}
           {| wrapper_Client := fixture2.a_client |}
           (surjective_pairing _)).
  - eexists. split; reflexivity.
  - reflexivity.
  - reflexivity.
Defined.

Lemma created_id_parses_back_witness :
  exists resp1 t' st,
    @OAuthClientResource.Create fixture.created_client_world
      fixture.client_resource
      {| Create_Plan := fixture.data fixture.client_plan |}
      (fixture.empty_response None) []
    = (Ok resp1, t')
    /\ tfsdk.State resp1 = Some st
    /\ exists id,
         in_int64 id
         /\ OAuthClientResourceModel.ID st = types.known (strconv.FormatInt id)
         /\ strconv.ParseInt (types.ValueString (OAuthClientResourceModel.ID st))
            = (id, None).
Proof.
  eexists. eexists. eexists. split; [reflexivity|]. split; [reflexivity|].
  exact (proj1 (@created_id_parses_back fixture.created_client_world)
           fixture.client_resource
           {| Create_Plan := fixture.data fixture.client_plan |}
           (fixture.empty_response None) [] _ _ _ eq_refl eq_refl eq_refl).
Defined.

Lemma create_sends_plan_values_witness :
  types.ValueString
    (OAuthClientResourceModel.Description (fixture.client_state "ignored")) = ""
  /\ exists sent,
       snd (@OAuthClientResource.Create fixture.created_client_world
              fixture.client_resource
              {| Create_Plan := fixture.data (fixture.client_state "ignored") |}
              (fixture.empty_response None) [])
       = [sent]
       /\ Body sent
          = Some (json.Object
                    [("client",
                      json.Object
                        [("id", json.Number "0");
                         ("name", json.String_ "Basic Client");
                         ("identifier", json.String_ "basic_client");
                         ("kind", json.String_ "public")])]).
Proof.
  split; [reflexivity|]. eexists. split; [reflexivity|].
  exact (proj2 (proj1 (@create_sends_plan_values fixture.created_client_world)
                  fixture.client_resource
                  {| Create_Plan := fixture.data (fixture.client_state "ignored") |}
                  (fixture.empty_response None) [] _ _ (surjective_pairing _))
           eq_refl).
Defined.



Lemma read_is_idempotent_witness :
  exists st1 t1,
    @OAuthTokenResource.Read fixture.read_token_world fixture.token_resource
      {| Read_State := fixture.data (fixture.token_state "7") |}
      (fixture.empty_response (Some (fixture.token_state "7"))) []
    = (Ok {| tfsdk.State := Some st1; tfsdk.Diagnostics := [] |}, t1)
    /\ OAuthTokenResourceModel.FullToken st1 = types.known "tok-at-creation"
    /\ fst (@OAuthTokenResource.Read fixture.read_token_world
              fixture.token_resource
              {| Read_State := fixture.data st1 |}
              {| tfsdk.State := Some st1; tfsdk.Diagnostics := [] |} t1)
       = Ok {| tfsdk.State := Some st1; tfsdk.Diagnostics := [] |}.
Proof.
  eexists. eexists. split; [reflexivity|]. split; [reflexivity|].
  eapply (proj2 (@read_is_idempotent fixture.read_token_world))
    with (r := fixture.token_resource) (t := [])
         (req := {| Read_State := fixture.data (fixture.token_state "7") |})
         (resp0 := fixture.empty_response (Some (fixture.token_state "7")))
         (resp := {| StatusCode := 200;
                     RespBody := fixture.render fixture.read_token_doc |})
         (resp' := {| StatusCode := 200;
                      RespBody := fixture.render fixture.read_token_doc |}).
  - reflexivity.
  - eexists. split; reflexivity.
  - reflexivity.
  - reflexivity.
  - reflexivity.
  - apply surjective_pairing.
  - eexists. split; reflexivity.
  - reflexivity.
  - reflexivity.
Defined.

Lemma refreshes_call_Do_at_most_once_each_witness :
  exists sent,
    snd (@token_refreshes fixture.read_token_world fixture.token_resource 3%nat
           (Some (fixture.token_state "7")) [])
    = ([] ++ sent)%list
    /\ (List.length sent <= 3)%nat.
Proof.
  exact (proj1 (@refreshes_call_Do_at_most_once_each
                  fixture.read_token_world)
           fixture.token_resource 3%nat (Some (fixture.token_state "7")) []
           _ _ (surjective_pairing _)).
Defined.

Lemma configure_error_exactly_when_a_value_is_missing_witness :
  diag.HasError (diag.Append [] []) = false
  /\ diag.HasError
       (ZendeskProvider.Diagnostics
          (ZendeskProvider.Configure fixture2.environment fixture2.null_config
             ZendeskProvider.fresh_response))
     = false.
Proof.
  split; [reflexivity|].
  exact (provider_facts.configure_error_exactly_when_a_value_is_missing
           fixture2.environment fixture2.null_config
           ZendeskProvider.fresh_response eq_refl).
Defined.

Lemma explicit_configuration_hides_environment_witness :
  ZendeskProvider.Configure fixture2.environment fixture.provider_config
    ZendeskProvider.fresh_response
  = ZendeskProvider.Configure fixture.no_environment fixture.provider_config
      ZendeskProvider.fresh_response.
Proof.
  exact (provider_facts.explicit_configuration_hides_environment
           fixture2.environment fixture.no_environment fixture.provider_config
           ZendeskProvider.fresh_response eq_refl eq_refl eq_refl).
Defined.

Lemma every_missing_value_is_reported_witness :
  ZendeskProvider.merged fixture.no_environment types.null "ZENDESK_EMAIL" = ""
  /\ In (diag.NewAttributeErrorDiagnostic "email" "Missing Zendesk email"
           "The provider cannot create the Zendesk API client as the email is missing.")
        (ZendeskProvider.Diagnostics
           (ZendeskProvider.Configure fixture.no_environment fixture2.null_config
              ZendeskProvider.fresh_response))
  /\ List.length
       (ZendeskProvider.Diagnostics
          (ZendeskProvider.Configure fixture.no_environment fixture2.null_config
             ZendeskProvider.fresh_response))
     = 3%nat.
Proof.
  split; [reflexivity|]. split; [|reflexivity].
  exact (proj1 (proj2
           (provider_facts.every_missing_value_is_reported
              fixture.no_environment fixture2.null_config
              ZendeskProvider.fresh_response eq_refl eq_refl eq_refl eq_refl))
           eq_refl).
Defined.

Lemma resource_type_names_are_distinct_witness :
  resourceMetadata.TypeName
    (OAuthClientResource_Metadata
       {| resourceMetadata.ProviderTypeName := "zendesk" |}
       {| resourceMetadata.TypeName := "" |})
  <> resourceMetadata.TypeName
       (OAuthTokenResource_Metadata
          {| resourceMetadata.ProviderTypeName := "zendesk" |}
          {| resourceMetadata.TypeName := "" |}).
Proof.
  exact (proj1 resource_type_names_are_distinct
           {| resourceMetadata.ProviderTypeName := "zendesk" |}
           {| resourceMetadata.TypeName := "" |}
           {| resourceMetadata.TypeName := "" |}).
Defined.
